(** * oceanograpy.data.ctd: metadata bookkeeping for CTD cruise datasets

    A shallow embedding of [src/oceanograpy/data/ctd.py].  The labelled-array
    library (xarray) is modelled by the small part of its dataset interface
    that the module calls: an insertion-ordered dictionary of variables, the
    set of coordinate names, and the global attribute dictionary.  Functions
    that can raise return a [result]; functions that print return a [py] run,
    which also records the printed lines.  The attribute schema, the clock
    and the convention checker live outside the module and are parameters of
    the section that holds its functions. *)

From Stdlib Require Import Floats Ascii String.
From stdpp Require Import base list strings gmap.

Local Open Scope string_scope.
Local Open Scope list_scope.
#[local] Set Warnings "-clear-no-such-hyp".

(** ** Exceptions, results and printed output *)

Inductive exn : Type :=
  | KeyError (key : string)
  | ValueError (msg : string)
  | AttributeError (name : string)
  | TypeError.

Inductive result (A : Type) : Type :=
  | Ok (a : A)
  | Raise (e : exn).
Arguments Ok {A} a.
Arguments Raise {A} e.

Global Instance result_ret : MRet result := λ A a, Ok a.
Global Instance result_bind : MBind result := λ A B k r,
  match r with
  | Ok a => k a
  | Raise e => Raise e
  end.

(** Imperative [for] loop threading a state through a fallible body. *)
Fixpoint for_each {A S} (body : S → A → result S) (s : S) (l : list A)
  : result S :=
  match l with
  | [] => Ok s
  | x :: l' => s' ← body s x; for_each body s' l'
  end.

(** A run of a printing function: the lines written to standard output up
    to the point where it returned or raised, and the outcome. *)
Record py (A : Type) : Type := Py { stdout : list string; outcome : result A }.
Arguments Py {A} stdout outcome.
Arguments stdout {A} p.
Arguments outcome {A} p.

Global Instance py_ret : MRet py := λ A a, Py [] (Ok a).
Global Instance py_bind : MBind py := λ A B k m,
  match outcome m with
  | Ok a => Py (stdout m ++ stdout (k a)) (outcome (k a))
  | Raise e => Py (stdout m) (Raise e)
  end.

(** The value a run returned, if it returned. *)
Definition outcome_value {A} (m : py A) : option A :=
  match outcome m with
  | Ok a => Some a
  | Raise _ => None
  end.

Definition print (line : string) : py unit := Py [line] (Ok tt).
Definition lift {A} (r : result A) : py A := Py [] r.

Fixpoint py_for {A S} (body : S → A → py S) (s : S) (l : list A) : py S :=
  match l with
  | [] => mret s
  | x :: l' => s' ← body s x; py_for body s' l'
  end.

Definition nl : string := String "010"%char EmptyString.
Definition dquote : string := String "034"%char EmptyString.

(** ** Python dictionaries: insertion-ordered association lists *)

Abbreviation dict V := (list (string * V)) (only parsing).

Definition keys {V} (d : dict V) : list string := d.*1.

Fixpoint dict_get {V} (k : string) (d : dict V) : option V :=
  match d with
  | [] => None
  | (k', v) :: d' => if decide (k' = k) then Some v else dict_get k d'
  end.

(** [d[k] = v]: an existing key keeps its position, a new key goes last. *)
Fixpoint dict_set {V} (k : string) (v : V) (d : dict V) : dict V :=
  match d with
  | [] => [(k, v)]
  | (k', v') :: d' =>
      if decide (k' = k) then (k, v) :: d' else (k', v') :: dict_set k v d'
  end.

(** [d[k]] raises [KeyError] on a missing key. *)
Definition dict_item {V} (k : string) (d : dict V) : result V :=
  match dict_get k d with
  | Some v => Ok v
  | None => Raise (KeyError k)
  end.

(** ** [_reorder_list] *)

Definition _reorder_list (input_list ordered_list : list string) : list string :=
  (* Create a set of existing attributes for quick lookup *)
  let existing_attributes : gset string := list_to_set input_list in
  (* Extract ordered attributes that exist in the dataset *)
  let ordered_attributes :=
    filter (λ attr, attr ∈ existing_attributes) ordered_list in
  (* Add any remaining attributes that are not in the ordered list *)
  let remaining_attributes :=
    filter (λ attr, attr ∉ ordered_attributes) input_list in
  (* Concatenate the ordered and remaining attributes *)
  ordered_attributes ++ remaining_attributes.

(** ** The dataset interface

    Measurement arrays are float64, flattened.  Attribute values are strings
    or floats. *)

Inductive attr_value : Type :=
  | AStr (s : string)
  | AFloat (x : float).

Record xr_variable : Type := XrVariable {
  v_dims : list string;
  v_attrs : dict attr_value;
  v_data : list float;
}.

Record Dataset : Type := XrDataset {
  variables : dict xr_variable;
  coord_names : list string;
  attrs : dict attr_value;
}.

Definition set_attrs (a : dict attr_value) (D : Dataset) : Dataset :=
  XrDataset (variables D) (coord_names D) a.

Definition set_variables (vs : dict xr_variable) (D : Dataset) : Dataset :=
  XrDataset vs (coord_names D) (attrs D).

(** [D.data_vars]: the variables that are not coordinates, in dataset order. *)
Definition data_vars (D : Dataset) : list string :=
  filter (λ k, k ∉ coord_names D) (keys (variables D)).

(** [D[name]] *)
Definition getitem (D : Dataset) (name : string) : result xr_variable :=
  dict_item name (variables D).

(** [D[name] = value] *)
Definition setitem (D : Dataset) (name : string) (v : xr_variable) : Dataset :=
  set_variables (dict_set name v (variables D)) D.

(** [D.name]: attribute-style access to a global attribute.  The names read
    this way, [id] and [history], are taken not to name a variable or a
    dimension of the dataset, which the library would look up first. *)
Definition getattr (D : Dataset) (name : string) : result attr_value :=
  match dict_get name (attrs D) with
  | Some v => Ok v
  | None => Raise (AttributeError name)
  end.

(** [D[name].attrs = a]: the variable object is shared with the dataset. *)
Definition set_var_attrs (D : Dataset) (name : string) (a : dict attr_value)
  : result Dataset :=
  v ← getitem D name;
  mret (setitem D name (XrVariable (v_dims v) a (v_data v))).

(** [D[name].attrs[key] = item] *)
Definition set_var_attr (D : Dataset) (name key : string) (item : attr_value)
  : result Dataset :=
  v ← getitem D name;
  mret (setitem D name
          (XrVariable (v_dims v) (dict_set key item (v_attrs v)) (v_data v))).

(** [D.drop(names)]: every name must be a variable of the dataset. *)
Definition drop (D : Dataset) (names : list string) : result Dataset :=
  if decide (Forall (λ n, n ∈ keys (variables D)) names) then
    let variables' := filter (λ kv, kv.1 ∉ names) (variables D) in
    Ok (XrDataset variables'
          (filter (λ k, k ∈ keys variables') (coord_names D)) (attrs D))
  else
    Raise (ValueError
      "One or more of the specified variables cannot be found in this dataset").

(** [D.rename_vars({old: new})]: the variables are re-inserted one by one
    under their new names, and a name that is already taken is refused. *)
Definition _rename_vars (old new : string) (vs : dict xr_variable)
  : result (dict xr_variable) :=
  for_each (λ acc kv,
      let name := if decide (kv.1 = old) then new else kv.1 in
      if decide (name ∈ keys acc)
      then Raise (ValueError ("the new name '" +:+ name +:+ "' conflicts"))
      else Ok (acc ++ [(name, kv.2)]))
    [] vs.

Definition rename_vars (D : Dataset) (old new : string) : result Dataset :=
  if decide (old ∈ keys (variables D)) then
    vs ← _rename_vars old new (variables D);
    mret (XrDataset vs
            ((λ k, if decide (k = old) then new else k) <$> coord_names D)
            (attrs D))
  else
    Raise (ValueError ("cannot rename '" +:+ old +:+
      "' because it is not a variable or coordinate in this dataset")).

(** Its effect on a dataset the caller still holds: the functions below that
    go through [drop] and [rename_vars] work on fresh dataset objects, so
    when they raise the caller's dataset is as it was. *)
Definition dataset_after (D : Dataset) (r : result Dataset) : Dataset :=
  match r with
  | Ok D' => D'
  | Raise _ => D
  end.

(** The coordinate variables of a dataset, with their names, in order. *)
Definition coords (D : Dataset) : dict xr_variable :=
  filter (λ kv, kv.1 ∈ coord_names D) (variables D).

(** ** Strings *)

(** [re.sub(r'\d', '', s)] on ASCII names. *)
Definition is_digit (c : ascii) : bool :=
  ((48 <=? N_of_ascii c) && (N_of_ascii c <=? 57))%N.

Fixpoint strip_digits (s : string) : string :=
  match s with
  | EmptyString => EmptyString
  | String c s' =>
      if is_digit c then strip_digits s' else String c (strip_digits s')
  end.

(** [sub in s] *)
Fixpoint str_contains (sub s : string) : bool :=
  String.prefix sub s ||
  match s with
  | EmptyString => false
  | String _ s' => str_contains sub s'
  end.

(** [s.replace(old, new)] for a non-empty [old]: occurrences are replaced
    from the left and do not overlap; [skip] counts the characters of the
    occurrence just replaced that are still to be passed over. *)
Fixpoint str_replace_from (skip : nat) (old new s : string) : string :=
  match s with
  | EmptyString => EmptyString
  | String c s' =>
      match skip with
      | S k => str_replace_from k old new s'
      | O =>
          if String.prefix old s
          then new +:+ str_replace_from (String.length old - 1) old new s'
          else String c (str_replace_from O old new s')
      end
  end.

Definition str_replace (old new s : string) : string :=
  str_replace_from O old new s.

(** [repr] of a list of plain names, as an f-string shows it. *)
Definition repr_names (l : list string) : string :=
  "[" +:+ String.concat ", " ((λ s, "'" +:+ s +:+ "'") <$> l) +:+ "]".

(** [collections.Counter(l)]: counts, keyed in order of first occurrence. *)
Definition Counter (l : list string) : dict nat :=
  foldl (λ c k, dict_set k (S (default 0 (dict_get k c))) c) [] l.

(** [l.remove(x)]: the first occurrence goes; [ValueError] if there is none. *)
Fixpoint list_remove (x : string) (l : list string) : result (list string) :=
  match l with
  | [] => Raise (ValueError "list.remove(x): x not in list")
  | y :: l' =>
      if decide (y = x) then Ok l' else l'' ← list_remove x l'; mret (y :: l'')
  end.

(** ** The module [oceanograpy.data.ctd] *)

Section ctd.

(** The attribute schema of [nc_format._standard_attrs]. *)
Variable global_attrs_ordered : list string.
Variable variable_attrs_ordered : list string.
Variable variable_attrs_necessary : list string.

(** The clock: a [pd.Timestamp], its [strftime('%Y-%m-%d')] and the
    [util.time.datetime_to_ISO8601] rendering; [str] of a float; and the
    convention checker run on a written file. *)
Variable Timestamp : Type.
Variable strftime_Y_m_d : Timestamp → string.
Variable datetime_to_ISO8601 : Timestamp → string.
Variable str_float : float → string.
Variable check_file : string → py unit.

(** [str(v)] of an attribute value, as an f-string or [print] shows it. *)
Definition py_str (v : attr_value) : string :=
  match v with
  | AStr s => s
  | AFloat x => str_float x
  end.

(** [v + s] for a string [s]. *)
Definition py_add_str (v : attr_value) (s : string) : result attr_value :=
  match v with
  | AStr h => Ok (AStr (h +:+ s))
  | AFloat _ => Raise TypeError
  end.

(** *** [quick_metadata_check] *)

Definition global_missing_line (attr : string) : string :=
  "- Possibly missing " +:+ attr.

Definition var_missing_line (varnm var_attr : string) : string :=
  "- " +:+ varnm +:+ ": Possibly missing " +:+ var_attr.

Definition var_ok_line (varnm : string) : string :=
  "- " +:+ varnm +:+ ": OK".

(** The report on one variable, written out twice in the source: one line
    per missing attribute, or one OK line. *)
Definition report_var (varnm : string) (_attrs_dict_ref_var : list string)
    (v : xr_variable) : py unit :=
  any_missing ← py_for (λ any_missing var_attr,
      if decide (var_attr ∉ keys (v_attrs v))
      then _ ← print (var_missing_line varnm var_attr); mret true
      else mret any_missing)
    false _attrs_dict_ref_var;
  if negb any_missing then print (var_ok_line varnm) else mret tt.

Definition other_dict : list (string * list string) :=
  [ ("LATITUDE", ["units"; "standard_name"; "long_name"; "axis"]);
    ("LONGITUDE", ["units"; "standard_name"; "long_name"; "axis"]);
    ("STATION", ["cf_role"; "long_name"]);
    ("CRUISE", ["long_name"]) ].

Definition quick_metadata_check (D : Dataset) : py unit :=
  _ ← print "--  QUICK METADATA CHECK --";
  _ ← print "NOTE: Not comprehensive! A true check is done on export to netcdf.";
  _ ← print (nl +:+ "# GLOBAL #");
  (* GLOBAL *)
  attrs_dict_ref ← lift (list_remove "date_created" global_attrs_ordered);
  attrs_dict_ref ← lift (list_remove "processing_level" attrs_dict_ref);
  _ ← py_for (λ _ attr,
      if decide (attr ∉ keys (attrs D))
      then print (global_missing_line attr)
      else mret tt)
    tt attrs_dict_ref;
  _ ← print (nl +:+ "# VARIABLE #");
  (* VARIABLE *)
  let attrs_dict_ref_var := variable_attrs_necessary in
  _ ← py_for (λ _ varnm,
      v ← lift (getitem D varnm);
      if decide ("PRES" ∈ v_dims v) then
        let _attrs_dict_ref_var := attrs_dict_ref_var in
        let _attrs_dict_ref_var :=
          if decide (varnm = "CHLA")
          then _attrs_dict_ref_var
                 ++ ["calibration_formula"; "coefficient_A"; "coefficient_B"]
          else _attrs_dict_ref_var in
        _attrs_dict_ref_var ←
          (if decide (varnm = "PRES") then
             let l := _attrs_dict_ref_var ++ ["axis"; "positive"] in
             l ← lift (list_remove "processing_level" l);
             lift (list_remove "QC_indicator" l)
           else mret _attrs_dict_ref_var);
        report_var varnm _attrs_dict_ref_var v
      else mret tt)
    tt (keys (variables D));
  py_for (λ _ entry,
      let '(varnm, _attrs_dict_ref_var) := entry in
      if decide (varnm ∈ keys (variables D)) then
        v ← lift (getitem D varnm);
        report_var varnm _attrs_dict_ref_var v
      else mret tt)
    tt other_dict.

(** *** [_reorder_list] applied to a dictionary, and [reorder_attrs] *)

(** [new = {}; for attr_name in reordered_list: new[attr_name] = old[attr_name]] *)
Definition rebuild_attrs (attrs_dict : dict attr_value)
    (reordered_list : list string) : result (dict attr_value) :=
  for_each (λ new attr_name,
      item ← dict_item attr_name attrs_dict;
      mret (dict_set attr_name item new))
    [] reordered_list.

Definition reorder_attrs (D : Dataset) : result Dataset :=
  (* GLOBAL *)
  let reordered_list := _reorder_list (keys (attrs D)) global_attrs_ordered in
  let attrs_dict := attrs D in
  new_attrs ← rebuild_attrs attrs_dict reordered_list;
  let D := set_attrs new_attrs D in
  (* VARIABLE *)
  for_each (λ D varnm,
      v ← getitem D varnm;
      let reordered_list_var :=
        _reorder_list (keys (v_attrs v)) variable_attrs_ordered in
      let var_attrs_dict := v_attrs v in
      new_attrs ← rebuild_attrs var_attrs_dict reordered_list_var;
      set_var_attrs D varnm new_attrs)
    D (data_vars D).

(** *** [add_now_as_date_created] and [to_netcdf] *)

Definition add_now_as_date_created (now_time : Timestamp) (D : Dataset)
  : Dataset :=
  let now_str := datetime_to_ISO8601 now_time in
  set_attrs (dict_set "date_created" (AStr now_str) (attrs D)) D.

(** What an export leaves behind: the file path and the dataset written to
    it, which is also the state of the caller's dataset after the call. *)
Record export : Type := Export { file_path : string; written : Dataset }.

(** [now_created] and [now_history] are the two readings of
    [pd.Timestamp.now()] that an export makes, in this order. *)
Definition to_netcdf (now_created now_history : Timestamp) (D : Dataset)
    (path : string) (file_name : option string)
    (convention_check add_to_history : bool) : py export :=
  let D := add_now_as_date_created now_created D in
  D ← lift (reorder_attrs D);
  let file_name :=
    match file_name with
    | Some s => AStr s
    | None =>
        match getattr D "id" with
        | Ok v => v
        | Raise _ => AStr "CTD_DATASET_NO_NAME"
        end
    end in
  let file_path := path +:+ py_str file_name +:+ ".nc" in
  D ← (if add_to_history then
         let now_time := strftime_Y_m_d now_history in
         history ← lift (getattr D "history");
         history ← lift (py_add_str history
                           (nl +:+ now_time +:+ ": Creation of this netcdf file."));
         let D := set_attrs (dict_set "history" history (attrs D)) D in
         _ ← print ("Updated history attribute. Current content:" +:+ nl +:+ "---");
         history ← lift (getattr D "history");
         _ ← print (py_str history);
         _ ← print "---";
         mret D
       else mret D);
  _ ← print ("Exported file " +:+ py_str file_name +:+ ".nc to " +:+ path +:+ ".");
  _ ← (if convention_check then
         _ ← print "Running convention checker:";
         check_file file_path
       else mret tt);
  mret (Export file_path D).

(** *** [calibrate_chl] *)

Definition default_chl_name_in : string := "CHLA1_instr".

Definition calibration_attrs (A B : float) : dict attr_value :=
  [ ("long_name",
      AStr ("Chlorophyll-A concentration calibrated against"
            +:+ " water sample measurements"));
    ("calibration_formula", AStr "chla_calibrated = A * chla_from_ctd + B");
    ("coefficient_A", AFloat A);
    ("coefficient_B", AFloat B) ].

(** The name of the calibrated variable: the one given unless it is missing
    or empty, else the input name without its [_instr] parts, else the input
    name with [_cal] appended. *)
Definition chl_name_out_of (chl_name_in : string) (chl_name_out : option string)
  : string :=
  match chl_name_out with
  | Some (String c s) => String c s
  | _ =>
      if str_contains "_instr" chl_name_in
      then str_replace "_instr" EmptyString chl_name_in
      else chl_name_in +:+ "_cal"
  end.

(** [A * x + B] on float64. *)
Definition linear (A B x : float) : float := PrimFloat.add (PrimFloat.mul A x) B.

Definition calibrate_chl (D : Dataset) (A B : float) (chl_name_in : string)
    (chl_name_out : option string) (verbose remove_uncal : bool) : py Dataset :=
  let chl_name_out := chl_name_out_of chl_name_in chl_name_out in
  (* Create a new variable with the coefficients applied; the arithmetic
     result carries no attributes *)
  v_in ← lift (getitem D chl_name_in);
  let D := setitem D chl_name_out
             (XrVariable (v_dims v_in) [] (linear A B <$> v_data v_in)) in
  v_in ← lift (getitem D chl_name_in);
  D ← lift (set_var_attrs D chl_name_out (v_attrs v_in));
  (* Add suitable attributes *)
  let new_attrs := calibration_attrs A B in
  D ← lift (for_each (λ D kv, set_var_attr D chl_name_out kv.1 kv.2)
              D new_attrs);
  (* Remove the uncalibrated chla *)
  Dr ← (if remove_uncal then
          let remove_str :=
            " Removed uncalibrated Chl-A (" +:+ dquote +:+ chl_name_in
            +:+ dquote +:+ ") from the dataset." in
          D ← lift (drop D [chl_name_in]);
          mret (D, remove_str)
        else mret (D, EmptyString));
  (* Print *)
  _ ← (if verbose then
         print ("Added calibrated Chl-A (" +:+ dquote +:+ chl_name_out
                +:+ dquote +:+ ")." +:+ Dr.2)
       else mret tt);
  mret Dr.1.

(** *** [drop_variables] *)

Definition default_retain_vars : list string :=
  ["TEMP1"; "CNDC1"; "PSAL1"; "CHLA1"].

(** [retain_vars = None] stands for a call that leaves the argument out. *)
Definition drop_variables (D : Dataset) (retain_vars : option (list string))
    (drop_vars : option (list string)) : py Dataset :=
  let retain_vars := default default_retain_vars retain_vars in
  Dd ← match drop_vars with
       | Some (n :: ns) =>
           let drop_vars := n :: ns in
           D ← lift (drop D drop_vars);
           mret (D, drop_vars)
       | _ =>
           let all_vars := data_vars D in
           lift (for_each (λ Dd varnm,
               let D := Dd.1 in
               let dropped := Dd.2 in
               if decide (varnm ∉ retain_vars) then
                 (v ← getitem D varnm;
                  if decide ("PRES" ∈ v_dims v) then
                    (D ← drop D [varnm];
                     mret (D, dropped ++ [varnm]))
                  else mret (D, dropped))
               else mret (D, dropped))
             (D, []) all_vars)
       end;
  _ ← print ("Dropped these variables from the Dataset: "
             +:+ repr_names Dd.2 +:+ ".");
  mret Dd.1.

(** *** [remove_numbers_in_names] *)

Definition remove_numbers_in_names (D : Dataset) : result Dataset :=
  (* Get variable names *)
  let all_varnms := data_vars D in
  (* Get number-stripped names *)
  let varnms_stripped := strip_digits <$> all_varnms in
  (* Identify duplicates *)
  let counter := Counter varnms_stripped in
  let duplicates := (filter (λ ic, 1 < ic.2) counter).*1 in
  (* Strip names *)
  for_each (λ D varnm,
      if decide (varnm ∉ duplicates) then
        let varnm_stripped := strip_digits varnm in
        rename_vars D varnm varnm_stripped
      else Ok D)
    D all_varnms.

End ctd.

(** ** The wrapper [make_publishing_ready] *)

Section publishing.

Variable global_attrs_ordered : list string.
Variable variable_attrs_ordered : list string.

(** The steps of [nc_format.conventionalize]: each takes the dataset and
    hands one back, and may print or raise. *)
Variable add_standard_var_attrs_ctd : Dataset → py Dataset.
Variable add_standard_glob_attrs_ctd : Dataset → bool → bool → py Dataset.
Variable add_gmdc_keywords_ctd : Dataset → py Dataset.
Variable add_range_attrs_ctd : Dataset → py Dataset.

(** [retain_vars = None] stands for a call that leaves the argument out; its
    default is the empty list. *)
Definition make_publishing_ready (D : Dataset) (NPI : bool)
    (retain_vars : option (list string)) : py Dataset :=
  let retain_vars := default [] retain_vars in
  D ← drop_variables D (Some retain_vars) None;
  D ← lift (remove_numbers_in_names D);
  D ← add_standard_var_attrs_ctd D;
  D ← add_standard_glob_attrs_ctd D NPI false;
  D ← add_gmdc_keywords_ctd D;
  D ← add_range_attrs_ctd D;
  D ← lift (reorder_attrs global_attrs_ordered variable_attrs_ordered D);
  mret D.

End publishing.

(** ** The module [oceanograpy.data.ship_ctd_tools._ctd_visualize] *)

(** [_get_profile_variables]: the data variables with both the [PRES] and
    the [TIME] dimension. *)
Definition _get_profile_variables (d : Dataset) : result (list string) :=
  for_each (λ profile_variables varnm,
      v ← getitem d varnm;
      if decide ("PRES" ∈ v_dims v) then
        (v ← getitem d varnm;
         if decide ("TIME" ∈ v_dims v)
         then mret (profile_variables ++ [varnm])
         else mret profile_variables)
      else mret profile_variables)
    [] (data_vars d).

Section colormaps.

(** [getattr(cmocean.cm, name)] *)
Variable Colormap : Type.
Variable cmocean_cm : string → result Colormap.

Definition _cmap_picker (varnm : string) : result Colormap :=
  let cmap_name := "amp" in
  let cmap_name :=
    if str_contains "TEMP" varnm then "thermal"
    else if str_contains "PSAL" varnm then "haline"
    else if str_contains "CHLA" varnm then "algae"
    else if str_contains "SIGTH" varnm then "deep"
    else cmap_name in
  cmocean_cm cmap_name.

End colormaps.

(** [l.index(x)]: the position of the first occurrence. *)
Fixpoint list_index (x : string) (l : list string) : result nat :=
  match l with
  | [] => Raise (ValueError ("'" +:+ x +:+ "' is not in list"))
  | y :: l' =>
      if decide (y = x) then Ok 0 else i ← list_index x l'; mret (S i)
  end.

Section station_controls.

(** The values of [d['STATION']] and their [str]. *)
Variable Station : Type.
Variable str_station : Station → string.
Variable station_values : list Station.

(** The two observers that [inspect_profiles] links the station dropdown and
    the profile slider with; each returns the value it gives the other
    control. *)
Definition station_descriptions : list string :=
  str_station <$> station_values.

(** [change.new] is the description chosen in the dropdown. *)
Definition update_slider_from_dropdown (new : string) : result nat :=
  let station_index := list_index new station_descriptions in
  station_index.

(** [change.new] is the slider position; [None] stands for the
    [IndexError] of a position past the last station. *)
Definition update_dropdown_from_slider (new : nat) : option string :=
  station ← station_values !! new;
  let station_description := str_station station in
  mret station_description.

End station_controls.

(** * Notions used to state the properties *)

(** ** Dictionaries *)

(** First occurrences of [l] that are not in [seen], in order. *)
Fixpoint dedup_from (seen l : list string) : list string :=
  match l with
  | [] => []
  | x :: l' =>
      if decide (x ∈ seen) then dedup_from seen l'
      else x :: dedup_from (seen ++ [x]) l'
  end.

(** Applying [f] to the value stored under the first entry for [k]. *)
Fixpoint dict_alter {V} (f : V → V) (k : string) (d : dict V) : dict V :=
  match d with
  | [] => []
  | (k', v) :: d' =>
      if decide (k' = k) then (k', f v) :: d' else (k', v) :: dict_alter f k d'
  end.

Definition alter_each {V} (f : V → V) (names : list string) (d : dict V)
  : dict V :=
  foldl (λ d k, dict_alter f k d) d names.

(** [d.update(new)], key by key. *)
Definition dict_update {V} (d new : dict V) : dict V :=
  foldl (λ d kv, dict_set kv.1 kv.2 d) d new.

(** ** Reordered attributes *)

(** The reordered form of one attribute dictionary. *)
Definition reordered (R : list string) (d : dict attr_value) : dict attr_value :=
  match rebuild_attrs d (_reorder_list (keys d) R) with
  | Ok r => r
  | Raise _ => d
  end.

Definition reorder_var (Rv : list string) (v : xr_variable) : xr_variable :=
  XrVariable (v_dims v) (reordered Rv (v_attrs v)) (v_data v).

(** ** Renaming *)

Definition rename_key (old new k : string) : string :=
  if decide (k = old) then new else k.

Definition rename_entries (old new : string) (vs : dict xr_variable)
  : dict xr_variable :=
  (λ kv, (rename_key old new kv.1, kv.2)) <$> vs.

(** Every coordinate name names a variable, as in every dataset the library
    builds. *)
Definition coords_are_variables (D : Dataset) : Prop :=
  Forall (λ k, k ∈ keys (variables D)) (coord_names D).

Definition dims_of (D : Dataset) : list (list string) :=
  (λ kv, v_dims kv.2) <$> variables D.

(** The name of a variable once the names in [P] have lost their digits. *)
Definition strip_names (P : list string) (k : string) : string :=
  if decide (k ∈ P) then strip_digits k else k.

(** One turn of the renaming loop of [remove_numbers_in_names]. *)
Definition rename_step (duplicates : list string) (D : Dataset)
    (varnm : string) : result Dataset :=
  if decide (varnm ∉ duplicates) then
    let varnm_stripped := strip_digits varnm in
    rename_vars D varnm varnm_stripped
  else Ok D.

(** ** Reports *)

(** A run that returns and prints only lines satisfying [P]. *)
Definition returns_printing {A} (P : string → Prop) (m : py A) : Prop :=
  (∃ a, outcome m = Ok a) ∧ Forall P (stdout m).

(** The lines of the variable part of the report. *)
Definition var_line (line : string) : Prop :=
  ∃ varnm, line = var_ok_line varnm ∨ ∃ var_attr, line = var_missing_line varnm var_attr.

(** ** Exports *)

(** The dataset as [to_netcdf] has it after stamping and reordering. *)
Definition stamped (Rg Rv : list string) (Timestamp : Type)
    (datetime_to_ISO8601 : Timestamp → string) (now_created : Timestamp)
    (D : Dataset) : Dataset :=
  dataset_after D
    (reorder_attrs Rg Rv
       (add_now_as_date_created Timestamp datetime_to_ISO8601 now_created D)).

(** The file name an export without an explicit one uses. *)
Definition default_file_name (str_float : float → string) (D : Dataset)
  : string :=
  match dict_get "id" (attrs D) with
  | Some v => py_str str_float v
  | None => "CTD_DATASET_NO_NAME"
  end.

(** The line an export appends to the history. *)
Definition history_line (date : string) : string :=
  nl +:+ date +:+ ": Creation of this netcdf file.".

(** ** Example datasets *)

Definition profile_var (data : list float) : xr_variable :=
  XrVariable ["TIME"; "PRES"] [("units", AStr "1")] data.

(** Two casts on two pressure levels, with two temperature sensors. *)
Definition cruise_two_temps : Dataset :=
  XrDataset
    [ ("TIME", XrVariable ["TIME"] [] [0%float; 1%float]);
      ("PRES", XrVariable ["PRES"] [] [10%float; 20%float]);
      ("TEMP1", profile_var [1%float; 2%float; 3%float; 4%float]);
      ("TEMP2", profile_var [1%float; 2%float; 3%float; 5%float]);
      ("PSAL1", profile_var [34%float; 34%float; 35%float; 35%float]);
      ("STATION", XrVariable ["TIME"] [] [1%float; 2%float]) ]
    ["TIME"; "PRES"]
    [ ("history", AStr "2024-01-01: Data collected.");
      ("id", AStr "cruise_2024");
      ("title", AStr "Test cruise") ].

(** The same cruise with one temperature sensor and a stray coordinate
    carrying a digit in its name. *)
Definition cruise_one_temp : Dataset :=
  XrDataset
    [ ("TIME", XrVariable ["TIME"] [] [0%float; 1%float]);
      ("PRES", XrVariable ["PRES"] [] [10%float; 20%float]);
      ("NISKIN2", XrVariable ["TIME"] [] [0%float; 1%float]);
      ("TEMP1", profile_var [1%float; 2%float; 3%float; 4%float]);
      ("PSAL1", profile_var [34%float; 34%float; 35%float; 35%float]) ]
    ["TIME"; "PRES"; "NISKIN2"]
    [ ("title", AStr "Test cruise") ].

(** One cast with uncalibrated chlorophyll from the instrument. *)
Definition cast_chla : Dataset :=
  XrDataset
    [ ("PRES", XrVariable ["PRES"] [] [10%float; 20%float]);
      ("CHLA1_instr",
       XrVariable ["PRES"]
         [("units", AStr "mg m-3"); ("long_name", AStr "Chlorophyll-A")]
         [1%float; 2.5%float]) ]
    ["PRES"]
    [ ("id", AStr "cast_1") ].

(** ** An example schema and clock *)

Definition example_global_attrs_ordered : list string :=
  ["title"; "id"; "summary"; "history"; "date_created"; "processing_level"].

Definition example_variable_attrs_ordered : list string :=
  ["standard_name"; "units"; "long_name"; "processing_level"; "QC_indicator"].

Definition example_variable_attrs_necessary : list string :=
  ["standard_name"; "units"; "long_name"; "processing_level"; "QC_indicator"].

(** A clock read as a date; floats shown by a fixed text; a convention
    checker that prints nothing. *)
Definition example_export (now_created now_history : string) (D : Dataset)
    (path : string) (file_name : option string)
    (convention_check add_to_history : bool) : py export :=
  to_netcdf example_global_attrs_ordered example_variable_attrs_ordered
    string (λ date, date) (λ date, date +:+ "T00:00:00")
    (λ _, "float") (λ _, mret tt)
    now_created now_history D path file_name convention_check add_to_history.

(** ** Variables by dimension, and names by digits *)

(** The variable called [n] carries the [PRES] dimension. *)
Definition is_depth (D : Dataset) (n : string) : Prop :=
  match dict_get n (variables D) with
  | Some v => "PRES" ∈ v_dims v
  | None => False
  end.

(** The variable called [n] carries the [PRES] and the [TIME] dimension. *)
Definition is_profile (D : Dataset) (n : string) : Prop :=
  match dict_get n (variables D) with
  | Some v => "PRES" ∈ v_dims v ∧ "TIME" ∈ v_dims v
  | None => False
  end.

Global Instance is_depth_dec D n : Decision (is_depth D n).
Proof. unfold is_depth. destruct (dict_get n (variables D)); apply _. Defined.

Global Instance is_profile_dec D n : Decision (is_profile D n).
Proof. unfold is_profile. destruct (dict_get n (variables D)); apply _. Defined.

(** The data variables that the retain branch of [drop_variables] removes. *)
Definition to_drop (D : Dataset) (retain_vars : list string) : list string :=
  filter (λ n, (n ∉ retain_vars) ∧ is_depth D n) (data_vars D).

Fixpoint all_digits (s : string) : bool :=
  match s with
  | EmptyString => true
  | String c s' => is_digit c && all_digits s'
  end.

Fixpoint no_digits (s : string) : bool :=
  match s with
  | EmptyString => true
  | String c s' => negb (is_digit c) && no_digits s'
  end.

(** Two variables with the same dimensions, the same data and the same
    value under every attribute name. *)
Definition same_content (v v' : xr_variable) : Prop :=
  v_dims v' = v_dims v ∧ v_data v' = v_data v
  ∧ ∀ k, dict_get k (v_attrs v') = dict_get k (v_attrs v).

(** The attributes that the metadata check asks of a [CHLA] variable on top
    of the necessary ones. *)
Definition chla_extra_attrs : list string :=
  ["calibration_formula"; "coefficient_A"; "coefficient_B"].


(** * Properties *)

(** ** Worked examples *)

Example reorder_list_ex :
  _reorder_list ["b"; "x"; "a"; "y"] ["a"; "b"; "c"] = ["a"; "b"; "x"; "y"].
Proof. vm_compute. reflexivity. Qed.

Example strip_digits_ex : strip_digits "TEMP1" = "TEMP".
Proof. reflexivity. Qed.

Example str_replace_ex : str_replace "_instr" EmptyString "CHLA1_instr" = "CHLA1".
Proof. reflexivity. Qed.

Example Counter_ex :
  Counter ["TEMP"; "PSAL"; "TEMP"] = [("TEMP", 2); ("PSAL", 1)].
Proof. reflexivity. Qed.

(** ** Runs *)

Lemma outcome_bind {A B} (m : py A) (k : A → py B) :
  outcome (m ≫= k) = outcome m ≫= (λ a, outcome (k a)).
Proof. unfold mbind at 1, py_bind. by destruct (outcome m). Qed.

Lemma outcome_lift {A} (r : result A) : outcome (lift r) = r.
Proof. done. Qed.

Lemma outcome_print line : outcome (print line) = Ok tt.
Proof. done. Qed.

Lemma outcome_ret {A} (a : A) : outcome (mret a) = Ok a.
Proof. done. Qed.

Ltac outcome_steps :=
  repeat first
    [ rewrite outcome_bind
    | rewrite outcome_lift
    | rewrite outcome_print
    | rewrite outcome_ret
    | progress cbn [mbind result_bind fst snd] ].

Lemma stdout_bind_Ok {A B} (m : py A) (k : A → py B) a :
  outcome m = Ok a → stdout (m ≫= k) = stdout m ++ stdout (k a).
Proof. unfold mbind, py_bind. by intros ->. Qed.

(** ** Lists and dictionaries *)

Lemma filter_ext_in {A} (P Q : A → Prop) `{!∀ x, Decision (P x)}
    `{!∀ x, Decision (Q x)} (l : list A) :
  (∀ x, x ∈ l → P x ↔ Q x) → filter P l = filter Q l.
Proof.
  induction l as [|a l IH]; intros HPQ; [done|].
  rewrite !filter_cons, IH by (intros x Hx; apply HPQ; by right).
  apply decide_ext, HPQ. by left.
Qed.

Lemma keys_dict_set {V} k (v : V) d :
  keys (dict_set k v d) = if decide (k ∈ keys d) then keys d else keys d ++ [k].
Proof.
  unfold keys. induction d as [|[k' v'] d IH]; [done|]. cbn [dict_set].
  destruct (decide (k' = k)) as [->|Hne].
  - rewrite !fmap_cons. cbn [fst]. rewrite decide_True by left. done.
  - rewrite !fmap_cons, IH. cbn [fst]. destruct (decide (k ∈ d.*1)).
    + rewrite decide_True by (by right). done.
    + rewrite decide_False; [done|]. rewrite elem_of_cons. naive_solver.
Qed.

Lemma dict_get_set {V} k k' (v : V) d :
  dict_get k' (dict_set k v d)
  = if decide (k = k') then Some v else dict_get k' d.
Proof.
  induction d as [|[k0 v0] d IH]; simpl.
  - destruct (decide (k = k')); done.
  - destruct (decide (k0 = k)) as [->|Hne]; simpl.
    + destruct (decide (k = k')); done.
    + rewrite IH. destruct (decide (k0 = k')) as [->|]; [|done].
      rewrite decide_False by done. done.
Qed.

Lemma dict_get_Some_keys {V} k (d : dict V) :
  k ∈ keys d ↔ is_Some (dict_get k d).
Proof.
  unfold keys. induction d as [|[k0 v0] d IH]; simpl.
  - split; [by intros ?%elem_of_nil | by intros [? ?]].
  - rewrite elem_of_cons. destruct (decide (k0 = k)) as [->|Hne].
    + split; eauto.
    + rewrite <- IH. naive_solver.
Qed.

Lemma dict_get_None_keys {V} k (d : dict V) :
  k ∉ keys d ↔ dict_get k d = None.
Proof. rewrite dict_get_Some_keys, eq_None_not_Some. done. Qed.

Lemma dict_item_Some {V} k (d : dict V) v :
  dict_get k d = Some v → dict_item k d = Ok v.
Proof. unfold dict_item. by intros ->. Qed.

(** A dictionary without repeated keys is determined by its key order and
    its lookups. *)
Lemma dict_ext {V} (d1 d2 : dict V) :
  NoDup (keys d1) → keys d1 = keys d2 →
  (∀ k, k ∈ keys d1 → dict_get k d1 = dict_get k d2) → d1 = d2.
Proof.
  unfold keys. revert d2.
  induction d1 as [|[k v] d1 IH]; intros [|[k2 v2] d2]; simpl; try done.
  intros [Hk Hnd]%NoDup_cons [= <- Hkeys] Hget.
  assert (v = v2) as <-.
  { specialize (Hget k (list_elem_of_here _ _)).
    rewrite !decide_True in Hget by done. congruence. }
  f_equal. apply IH; [done..|].
  intros k' Hk'. specialize (Hget k' (list_elem_of_further _ _ _ Hk')).
  rewrite !decide_False in Hget by (intros ->; done). done.
Qed.

Lemma dedup_from_ext s1 s2 l :
  (∀ x, x ∈ s1 ↔ x ∈ s2) → dedup_from s1 l = dedup_from s2 l.
Proof.
  revert s1 s2. induction l as [|a l IH]; intros s1 s2 Hs; simpl; [done|].
  destruct (decide (a ∈ s1)) as [H1|H1].
  - rewrite decide_True by (by apply Hs). by apply IH.
  - rewrite decide_False by (by rewrite <- Hs). f_equal. apply IH.
    intros x. rewrite !elem_of_app, Hs. done.
Qed.

Lemma elem_of_dedup_from s l x :
  x ∈ dedup_from s l ↔ x ∈ l ∧ x ∉ s.
Proof.
  revert s. induction l as [|a l IH]; intros s; simpl.
  - rewrite elem_of_nil. naive_solver.
  - destruct (decide (a ∈ s)) as [Ha|Ha].
    + rewrite IH, elem_of_cons. naive_solver.
    + rewrite !elem_of_cons, IH, elem_of_app, list_elem_of_singleton.
      destruct (decide (x = a)) as [->|]; naive_solver.
Qed.

Lemma NoDup_dedup_from s l : NoDup (dedup_from s l).
Proof.
  revert s. induction l as [|a l IH]; intros s; simpl; [constructor|].
  destruct (decide (a ∈ s)); [done|].
  constructor; [|done]. rewrite elem_of_dedup_from, elem_of_app.
  rewrite list_elem_of_singleton. naive_solver.
Qed.

Lemma dedup_from_app s l1 l2 :
  dedup_from s (l1 ++ l2) = dedup_from s l1 ++ dedup_from (s ++ l1) l2.
Proof.
  revert s. induction l1 as [|a l1 IH]; intros s; simpl.
  - by rewrite app_nil_r.
  - destruct (decide (a ∈ s)) as [Ha|Ha].
    + rewrite IH. f_equal. apply dedup_from_ext. intros x.
      rewrite !elem_of_app, elem_of_cons. naive_solver.
    + simpl. rewrite IH. do 2 f_equal. by rewrite <- app_assoc.
Qed.

Lemma dedup_from_filter (P : string → Prop) `{!∀ x, Decision (P x)} s l :
  filter P (dedup_from s l) = dedup_from s (filter P l).
Proof.
  revert s. induction l as [|a l IH]; intros s; simpl; [done|].
  rewrite filter_cons. destruct (decide (P a)) as [HP|HP]; simpl.
  - destruct (decide (a ∈ s)); [done|].
    rewrite filter_cons_True by done. by rewrite IH.
  - destruct (decide (a ∈ s)); [done|].
    rewrite filter_cons_False by done. rewrite IH.
    (* [a] fails [P], so it meets no element of [filter P l] *)
    clear IH. revert s n. induction l as [|b l IHl]; intros s Hs; simpl; [done|].
    rewrite filter_cons. destruct (decide (P b)) as [HPb|HPb]; [|by apply IHl].
    simpl. assert (b ≠ a) by (intros ->; done).
    destruct (decide (b ∈ s)) as [Hb|Hb].
    + rewrite decide_True by (rewrite elem_of_app; by left). by apply IHl.
    + rewrite decide_False
        by (rewrite elem_of_app, list_elem_of_singleton; naive_solver).
      f_equal. etrans; [|apply IHl].
      * apply dedup_from_ext. intros x. rewrite !elem_of_app.
        rewrite !list_elem_of_singleton. naive_solver.
      * rewrite elem_of_app, list_elem_of_singleton. naive_solver.
Qed.

Lemma dedup_from_dedup_from s s' l :
  (∀ x, x ∈ s' → x ∈ s) → dedup_from s (dedup_from s' l) = dedup_from s l.
Proof.
  revert s s'. induction l as [|a l IH]; intros s s' Hs; simpl; [done|].
  destruct (decide (a ∈ s')) as [Ha'|Ha'].
  - rewrite decide_True by auto. by apply IH.
  - simpl. destruct (decide (a ∈ s)) as [Ha|Ha].
    + apply IH. intros x. rewrite elem_of_app, list_elem_of_singleton.
      naive_solver.
    + f_equal. apply IH. intros x. rewrite !elem_of_app. naive_solver.
Qed.

(** ** [_reorder_list] *)

Lemma reorder_list_unfold (M R : list string) :
  _reorder_list M R = filter (.∈ M) R ++ filter (.∉ R) M.
Proof.
  unfold _reorder_list.
  assert (filter (λ attr, attr ∈ (list_to_set M : gset string)) R
          = filter (.∈ M) R) as ->.
  { apply list_filter_iff. intros a. by rewrite elem_of_list_to_set. }
  f_equal. apply filter_ext_in. intros a Ha.
  rewrite list_elem_of_filter. naive_solver.
Qed.

Lemma elem_of_reorder_list (M R : list string) k :
  k ∈ _reorder_list M R ↔ k ∈ M.
Proof.
  rewrite reorder_list_unfold, elem_of_app, !list_elem_of_filter.
  destruct (decide (k ∈ R)); naive_solver.
Qed.

(** C2: for every key list [M] of a mapping and every reference ordering
    [R], [_reorder_list M R] is the keys of [R] that are in [M], in [R]'s
    order, followed by the keys of [M] that are not in [R], in [M]'s order;
    it has exactly the keys of [M]; and it is defined on an empty mapping,
    where it is empty, and for an empty reference, where it is [M]. *)
Theorem reorder_list_spec (M R : list string) :
  _reorder_list M R = filter (.∈ M) R ++ filter (.∉ R) M
  ∧ (∀ k, k ∈ _reorder_list M R ↔ k ∈ M)
  ∧ _reorder_list [] R = []
  ∧ _reorder_list M [] = M.
Proof.
  split; [apply reorder_list_unfold|].
  split; [apply elem_of_reorder_list|].
  rewrite !reorder_list_unfold. split.
  - rewrite filter_nil, app_nil_r.
    induction R as [|a R IH]; [done|].
    rewrite filter_cons_False; [done|apply not_elem_of_nil].
  - rewrite filter_nil. simpl.
    induction M as [|a M IH]; [done|].
    rewrite filter_cons_True by apply not_elem_of_nil. by rewrite IH.
Qed.

(** With a reference ordering that shares no key with the mapping, the
    mapping's own order comes back. *)
Lemma reorder_list_disjoint (M R : list string) :
  (∀ k, k ∈ M → k ∉ R) → _reorder_list M R = M.
Proof.
  intros Hdisj. rewrite reorder_list_unfold.
  assert (filter (.∈ M) R = []) as ->.
  { induction R as [|a R IH]; [done|].
    rewrite filter_cons_False.
    - apply IH. intros k Hk HR. apply (Hdisj k Hk). by right.
    - intros Ha. apply (Hdisj a Ha). by left. }
  simpl. induction M as [|a M IH]; [done|].
  rewrite filter_cons_True by (apply Hdisj; by left).
  f_equal. apply IH. intros k Hk. apply Hdisj. by right.
Qed.

(** On keys without repetition, and a reference without repetition, the
    result is a rearrangement of the keys. *)
Lemma reorder_list_perm (M R : list string) :
  NoDup M → NoDup R → _reorder_list M R ≡ₚ M.
Proof.
  intros HM HR. apply NoDup_Permutation; [|done|apply elem_of_reorder_list].
  rewrite reorder_list_unfold. apply NoDup_app. split_and!.
  - by apply NoDup_filter.
  - intros x. rewrite !list_elem_of_filter. naive_solver.
  - by apply NoDup_filter.
Qed.

(** ** [reorder_attrs] *)

(** Rebuilding a dictionary key by key, from a partial result [new]. *)
Lemma rebuild_from (d new : dict attr_value) (l : list string) :
  (∀ k, k ∈ l → k ∈ keys d) →
  (∀ k, k ∈ keys new → dict_get k new = dict_get k d) →
  ∃ r,
    for_each (λ new attr_name,
        item ← dict_item attr_name d; mret (dict_set attr_name item new))
      new l = Ok r
    ∧ keys r = keys new ++ dedup_from (keys new) l
    ∧ (∀ k, k ∈ keys r → dict_get k r = dict_get k d).
Proof.
  revert new. induction l as [|a l IH]; intros new Hl Hnew.
  - exists new. simpl. by rewrite app_nil_r.
  - assert (a ∈ keys d) as [v Hv]%dict_get_Some_keys by (apply Hl; by left).
    cbn [for_each]. rewrite (dict_item_Some _ _ _ Hv).
    cbn [mbind result_bind mret result_ret].
    destruct (IH (dict_set a v new)) as (r & Hr & Hkeys & Hget).
    + intros k Hk. apply Hl. by right.
    + intros k Hk. rewrite dict_get_set.
      destruct (decide (a = k)) as [->|Hne]; [done|].
      apply Hnew. rewrite keys_dict_set in Hk.
      destruct (decide (a ∈ keys new)); [done|].
      apply elem_of_app in Hk as [?|?%list_elem_of_singleton]; [done|].
      congruence.
    + exists r. split; [done|]. split; [|done].
      rewrite Hkeys, keys_dict_set. cbn [dedup_from].
      destruct (decide (a ∈ keys new)); [done|].
      by rewrite <- app_assoc.
Qed.

Lemma filter_filter_same {A} (P : A → Prop) `{!∀ x, Decision (P x)} (l : list A) :
  filter P (filter P l) = filter P l.
Proof. apply list_filter_filter_l. done. Qed.

Lemma filter_none {A} (P : A → Prop) `{!∀ x, Decision (P x)} (l : list A) :
  (∀ x, x ∈ l → ¬ P x) → filter P l = [].
Proof.
  induction l as [|a l IH]; intros Hnone; [done|].
  rewrite filter_cons_False by (apply Hnone; by left).
  apply IH. intros x Hx. apply Hnone. by right.
Qed.

(** Reordering one dictionary succeeds; the result holds the first
    occurrences of the reordered keys and the same values. *)
Lemma rebuild_reordered (R : list string) (d : dict attr_value) :
  ∃ r, rebuild_attrs d (_reorder_list (keys d) R) = Ok r
    ∧ keys r = dedup_from [] (_reorder_list (keys d) R)
    ∧ (∀ k, k ∈ keys r → dict_get k r = dict_get k d).
Proof.
  unfold rebuild_attrs.
  destruct (rebuild_from d [] (_reorder_list (keys d) R)) as (r & Hr & Hk & Hg).
  - intros k. by rewrite elem_of_reorder_list.
  - intros k Hk. by apply elem_of_nil in Hk.
  - exists r. done.
Qed.

Lemma reordered_keys (R : list string) (d : dict attr_value) :
  dedup_from [] (_reorder_list (keys d) R)
  = dedup_from [] (filter (.∈ keys d) R)
    ++ dedup_from (filter (.∈ keys d) R) (filter (.∉ R) (keys d)).
Proof. by rewrite reorder_list_unfold, dedup_from_app. Qed.

(** A reordered dictionary is a fixed point of reordering. *)
Lemma rebuild_reordered_idem (R : list string) (d r : dict attr_value) :
  rebuild_attrs d (_reorder_list (keys d) R) = Ok r →
  rebuild_attrs r (_reorder_list (keys r) R) = Ok r.
Proof.
  intros Hr.
  destruct (rebuild_reordered R d) as (r' & Hr' & Hk & _).
  rewrite Hr in Hr'. injection Hr' as <-.
  destruct (rebuild_reordered R r) as (r2 & Hr2 & Hk2 & Hg2).
  rewrite Hr2. f_equal. symmetry.
  assert (NoDup (keys r)) as Hnd by (rewrite Hk; apply NoDup_dedup_from).
  assert (∀ k, k ∈ keys r ↔ k ∈ keys d) as Hin.
  { intros k. rewrite Hk, elem_of_dedup_from, elem_of_reorder_list.
    pose proof (not_elem_of_nil k). naive_solver. }
  assert (keys r2 = keys r) as Hkeys.
  { set (X := filter (.∈ keys d) R). set (Y := filter (.∉ R) (keys d)).
    assert (keys r = dedup_from [] X ++ dedup_from X Y) as HkXY
      by (by rewrite Hk, reordered_keys).
    assert (filter (.∉ R) (keys r) = dedup_from X Y) as Hrem.
    { rewrite HkXY, filter_app, !dedup_from_filter.
      rewrite (filter_none (.∉ R) X)
        by (intros x [_ ?]%list_elem_of_filter; naive_solver).
      unfold Y. by rewrite filter_filter_same. }
    rewrite Hk2, reordered_keys, Hrem.
    assert (filter (.∈ keys r) R = X) as ->
      by (by apply list_filter_iff).
    rewrite HkXY. f_equal. by apply dedup_from_dedup_from. }
  apply dict_ext; [done|done|].
  intros k Hk'. symmetry. apply Hg2. by rewrite Hkeys.
Qed.

Lemma reorder_list_fixed_point (M R : list string) :
  _reorder_list (_reorder_list M R) R = _reorder_list M R.
Proof.
  rewrite (reorder_list_unfold (_reorder_list M R)).
  assert (filter (.∈ _reorder_list M R) R = filter (.∈ M) R) as ->.
  { apply list_filter_iff. intros k. apply elem_of_reorder_list. }
  rewrite !reorder_list_unfold, filter_app. f_equal.
  rewrite filter_filter_same.
  rewrite (filter_none (.∉ R) (filter (.∈ M) R)); [done|].
  intros x [_ ?]%list_elem_of_filter. naive_solver.
Qed.

Lemma dict_set_alter {V} (f : V → V) k d v :
  dict_get k d = Some v → dict_set k (f v) d = dict_alter f k d.
Proof.
  induction d as [|[k' v'] d IH]; simpl; [done|].
  destruct (decide (k' = k)) as [->|Hne]; [by intros [= ->]|].
  intros Hv. by rewrite IH.
Qed.

Lemma keys_dict_alter {V} (f : V → V) k d : keys (dict_alter f k d) = keys d.
Proof.
  unfold keys. induction d as [|[k' v'] d IH]; simpl; [done|].
  destruct (decide (k' = k)); rewrite !fmap_cons; simpl; by rewrite ?IH.
Qed.

Lemma dict_alter_idem {V} (f : V → V) k d :
  (∀ v, f (f v) = f v) → dict_alter f k (dict_alter f k d) = dict_alter f k d.
Proof.
  intros Hf. induction d as [|[k' v'] d IH]; simpl; [done|].
  destruct (decide (k' = k)) as [->|Hne]; simpl.
  - rewrite decide_True by done. by rewrite Hf.
  - rewrite decide_False by done. by rewrite IH.
Qed.

Lemma dict_alter_comm {V} (f : V → V) k1 k2 d :
  dict_alter f k1 (dict_alter f k2 d) = dict_alter f k2 (dict_alter f k1 d).
Proof.
  destruct (decide (k1 = k2)) as [->|Hne]; [done|].
  induction d as [|[k' v'] d IH]; simpl; [done|].
  repeat (case_decide; simplify_eq/=); try done.
  by rewrite IH.
Qed.

Lemma alter_each_alter {V} (f : V → V) k names (d : dict V) :
  alter_each f names (dict_alter f k d) = dict_alter f k (alter_each f names d).
Proof.
  revert d. induction names as [|n names IH]; intros d; simpl; [done|].
  by rewrite dict_alter_comm, IH.
Qed.

Lemma alter_each_absorbs {V} (f : V → V) k names (d : dict V) :
  (∀ v, f (f v) = f v) → k ∈ names →
  dict_alter f k (alter_each f names d) = alter_each f names d.
Proof.
  intros Hf. revert d. induction names as [|n names IH]; intros d Hk.
  - by apply elem_of_nil in Hk.
  - simpl. apply elem_of_cons in Hk as [->|Hk]; [|by apply IH].
    by rewrite <- alter_each_alter, dict_alter_idem.
Qed.

Lemma alter_each_fixed {V} (f : V → V) names (d : dict V) :
  (∀ k, k ∈ names → dict_alter f k d = d) → alter_each f names d = d.
Proof.
  induction names as [|n names IH]; intros Hfix; simpl; [done|].
  rewrite Hfix by left. apply IH. intros k Hk. apply Hfix. by right.
Qed.

Lemma alter_each_idem {V} (f : V → V) names (d : dict V) :
  (∀ v, f (f v) = f v) →
  alter_each f names (alter_each f names d) = alter_each f names d.
Proof.
  intros Hf. apply alter_each_fixed. intros k Hk.
  by apply alter_each_absorbs.
Qed.

Lemma keys_alter_each {V} (f : V → V) names (d : dict V) :
  keys (alter_each f names d) = keys d.
Proof.
  revert d. induction names as [|n names IH]; intros d; simpl; [done|].
  by rewrite IH, keys_dict_alter.
Qed.

Lemma getitem_Some D k v :
  dict_get k (variables D) = Some v → getitem D k = Ok v.
Proof. apply dict_item_Some. Qed.

Lemma set_var_attrs_Some D k a v :
  dict_get k (variables D) = Some v →
  set_var_attrs D k a = Ok (setitem D k (XrVariable (v_dims v) a (v_data v))).
Proof. intros Hv. unfold set_var_attrs. by rewrite (getitem_Some _ _ _ Hv). Qed.

Section reorder.

Variables Rg Rv : list string.

Lemma rebuild_reordered_eq R d :
  rebuild_attrs d (_reorder_list (keys d) R) = Ok (reordered R d).
Proof.
  unfold reordered. destruct (rebuild_reordered R d) as (r & -> & _). done.
Qed.

Lemma reordered_idem R d : reordered R (reordered R d) = reordered R d.
Proof.
  unfold reordered at 1.
  by rewrite (rebuild_reordered_idem R d _ (rebuild_reordered_eq R d)).
Qed.

Lemma reorder_var_idem v :
  reorder_var Rv (reorder_var Rv v) = reorder_var Rv v.
Proof. unfold reorder_var. simpl. by rewrite reordered_idem. Qed.

(** The loop over the data variables reorders each one in place. *)
Lemma reorder_vars_loop (names : list string) (D : Dataset) :
  (∀ k, k ∈ names → k ∈ keys (variables D)) →
  for_each (λ D varnm,
      v ← getitem D varnm;
      let reordered_list_var := _reorder_list (keys (v_attrs v)) Rv in
      let var_attrs_dict := v_attrs v in
      new_attrs ← rebuild_attrs var_attrs_dict reordered_list_var;
      set_var_attrs D varnm new_attrs)
    D names
  = Ok (set_variables (alter_each (reorder_var Rv) names (variables D)) D).
Proof.
  revert D. induction names as [|n names IH]; intros D Hin.
  - by destruct D.
  - assert (n ∈ keys (variables D)) as [v Hv]%dict_get_Some_keys
      by (apply Hin; by left).
    cbn [for_each]. rewrite (getitem_Some _ _ _ Hv).
    cbn [mbind result_bind mret result_ret].
    rewrite rebuild_reordered_eq. cbn [mbind result_bind mret result_ret].
    rewrite (set_var_attrs_Some _ _ _ _ Hv).
    cbn [mbind result_bind mret result_ret].
    unfold setitem. fold (reorder_var Rv v).
    rewrite (dict_set_alter (reorder_var Rv) n _ v Hv).
    rewrite IH.
    + by destruct D.
    + intros k Hk. simpl. rewrite keys_dict_alter. apply Hin. by right.
Qed.

Lemma reorder_attrs_eq (D : Dataset) :
  reorder_attrs Rg Rv D
  = Ok (XrDataset (alter_each (reorder_var Rv) (data_vars D) (variables D))
          (coord_names D) (reordered Rg (attrs D))).
Proof.
  unfold reorder_attrs. rewrite rebuild_reordered_eq.
  cbn [mbind result_bind mret result_ret].
  rewrite reorder_vars_loop; [done|].
  intros k [_ Hk]%list_elem_of_filter. done.
Qed.

End reorder.

(** C3: attribute reordering is idempotent.  The reordered list is a fixed
    point of [_reorder_list], and for every dataset [reorder_attrs] returns a
    dataset on which a second application changes nothing: the global
    attribute dictionary and every variable's attribute dictionary keep
    their content and their key order. *)
Theorem reorder_attrs_idempotent (Rg Rv : list string) :
  (∀ M R, _reorder_list (_reorder_list M R) R = _reorder_list M R)
  ∧ (∀ D, ∃ D1, reorder_attrs Rg Rv D = Ok D1
            ∧ reorder_attrs Rg Rv D1 = Ok D1).
Proof.
  split; [apply reorder_list_fixed_point|].
  intros D. eexists. split; [apply reorder_attrs_eq|].
  rewrite reorder_attrs_eq. f_equal. unfold data_vars. simpl.
  rewrite keys_alter_each, reordered_idem. f_equal.
  apply alter_each_idem, reorder_var_idem.
Qed.

(** ** [rename_vars] and [remove_numbers_in_names] *)

Lemma keys_rename_entries old new vs :
  keys (rename_entries old new vs) = rename_key old new <$> keys vs.
Proof.
  unfold keys, rename_entries. rewrite <- !list_fmap_compose. done.
Qed.

Lemma keys_app {V} (d1 d2 : dict V) : keys (d1 ++ d2) = keys d1 ++ keys d2.
Proof. unfold keys. apply fmap_app. Qed.

Lemma rename_vars_loop old new (acc vs r : dict xr_variable) :
  for_each (λ acc kv,
      let name := if decide (kv.1 = old) then new else kv.1 in
      if decide (name ∈ keys acc)
      then Raise (ValueError ("the new name '" +:+ name +:+ "' conflicts"))
      else Ok (acc ++ [(name, kv.2)]))
    acc vs = Ok r →
  r = acc ++ rename_entries old new vs
  ∧ NoDup (rename_key old new <$> keys vs)
  ∧ (∀ k, k ∈ rename_key old new <$> keys vs → k ∉ keys acc).
Proof.
  revert acc. induction vs as [|[k v] vs IH]; intros acc; cbn [for_each].
  - intros [= <-]. rewrite app_nil_r. split; [done|]. split; [constructor|].
    intros k Hk. by apply elem_of_nil in Hk.
  - cbn [fst snd]. fold (rename_key old new k).
    destruct (decide (rename_key old new k ∈ keys acc)) as [Hin|Hnin];
      [done|].
    cbn [mbind result_bind]. intros (-> & Hnd & Hfresh)%IH.
    split; [by rewrite <- app_assoc|].
    unfold keys at 1 3. rewrite !fmap_cons. cbn [fst]. fold (keys vs). split.
    + constructor; [|done]. intros Hk. apply (Hfresh _ Hk).
      rewrite keys_app, elem_of_app. right. by left.
    + intros k' [->|Hk']%elem_of_cons; [done|].
      intros Hacc. apply (Hfresh _ Hk'). rewrite keys_app, elem_of_app.
      by left.
Qed.

Lemma rename_vars_Ok D old new D' :
  rename_vars D old new = Ok D' →
  old ∈ keys (variables D)
  ∧ D' = XrDataset (rename_entries old new (variables D))
           (rename_key old new <$> coord_names D) (attrs D)
  ∧ NoDup (rename_key old new <$> keys (variables D)).
Proof.
  unfold rename_vars, _rename_vars.
  destruct (decide (old ∈ keys (variables D))) as [Hold|]; [|done].
  destruct (for_each _ _ _) as [vs|] eqn:Hvs; [|done].
  apply rename_vars_loop in Hvs as (-> & Hnd & _).
  cbn [mbind result_bind mret result_ret]. intros [= <-]. done.
Qed.

Lemma NoDup_fmap_inj_on {A B} (f : A → B) (l : list A) a b :
  NoDup (f <$> l) → a ∈ l → b ∈ l → f a = f b → a = b.
Proof.
  induction l as [|x l IH]; [by intros _ ?%elem_of_nil|].
  rewrite fmap_cons. intros [Hx Hnd]%NoDup_cons.
  intros [->|Ha]%elem_of_cons [->|Hb]%elem_of_cons Hfab; [done|..].
  - exfalso. apply Hx. rewrite Hfab. by apply list_elem_of_fmap_2.
  - exfalso. apply Hx. rewrite <- Hfab. by apply list_elem_of_fmap_2.
  - by apply IH.
Qed.

Lemma fmap_id_on {A} (f : A → A) (l : list A) :
  (∀ x, x ∈ l → f x = x) → f <$> l = l.
Proof.
  induction l as [|a l IH]; intros Hf; [done|].
  rewrite fmap_cons, Hf by left. f_equal. apply IH.
  intros x Hx. apply Hf. by right.
Qed.

(** Renaming a data variable leaves the coordinates alone. *)
Lemma rename_data_var_frame D old new D' :
  coords_are_variables D → old ∉ coord_names D →
  rename_vars D old new = Ok D' →
  coords_are_variables D'
  ∧ coord_names D' = coord_names D
  ∧ coords D' = coords D
  ∧ dims_of D' = dims_of D
  ∧ attrs D' = attrs D.
Proof.
  intros Hwf Hold (Hin & -> & Hnd)%rename_vars_Ok.
  pose proof (proj1 (Forall_forall _ _) Hwf) as Hwf'.
  assert (rename_key old new <$> coord_names D = coord_names D) as Hcn.
  { apply fmap_id_on. intros k Hk. unfold rename_key.
    rewrite decide_False; [done|]. by intros ->. }
  assert (new ∉ coord_names D) as Hnew.
  { intros Hnew. apply Hold.
    assert (old = new) as ->; [|done].
    apply (NoDup_fmap_inj_on _ _ _ _ Hnd Hin (Hwf' _ Hnew)).
    unfold rename_key. rewrite decide_True by done.
    by destruct (decide (new = old)). }
  unfold coords_are_variables, coords, dims_of. cbn [variables coord_names attrs].
  rewrite Hcn. split_and!; [|done| | |done].
  - apply Forall_forall. intros k Hk. rewrite keys_rename_entries.
    apply list_elem_of_fmap. exists k. split; [|by apply Hwf'].
    unfold rename_key. rewrite decide_False; [done|]. by intros ->.
  - clear Hin Hnd Hwf Hwf' Hcn. generalize (variables D) as vs.
    induction vs as [|[k v] vs IH]; [done|].
    change (rename_entries old new ((k, v) :: vs))
      with ((rename_key old new k, v) :: rename_entries old new vs).
    rewrite !filter_cons, IH. cbn [fst snd]. unfold rename_key.
    destruct (decide (k = old)) as [->|Hne]; [|done].
    by rewrite !decide_False.
  - unfold rename_entries. rewrite <- list_fmap_compose. done.
Qed.

Lemma remove_numbers_loop_frame (duplicates l : list string) (D D' : Dataset) :
  coords_are_variables D → (∀ n, n ∈ l → n ∉ coord_names D) →
  for_each (λ D varnm,
      if decide (varnm ∉ duplicates) then
        let varnm_stripped := strip_digits varnm in
        rename_vars D varnm varnm_stripped
      else Ok D)
    D l = Ok D' →
  coord_names D' = coord_names D
  ∧ coords D' = coords D
  ∧ dims_of D' = dims_of D
  ∧ attrs D' = attrs D.
Proof.
  revert D. induction l as [|n l IH]; intros D Hwf Hl; cbn [for_each].
  - by intros [= <-].
  - destruct (decide (n ∉ duplicates)) as [Hn|Hn].
    + cbn zeta. destruct (rename_vars D n (strip_digits n)) as [D1|] eqn:HD1;
        [|done].
      cbn [mbind result_bind].
      apply rename_data_var_frame in HD1 as (Hwf1 & Hcn & Hco & Hdi & Hat);
        [|done|apply Hl; by left].
      intros (? & ? & ? & ?)%IH; [|done|].
      * split_and!; congruence.
      * intros k Hk. rewrite Hcn. apply Hl. by right.
    + cbn [mbind result_bind]. apply IH; [done|].
      intros k Hk. apply Hl. by right.
Qed.

(** C10: the name normalizer goes over the data variables only.  On every
    dataset whose coordinate names name variables, the dataset the caller
    holds after [remove_numbers_in_names] has the same coordinate names, the
    same coordinate variables under the same names, and the same dimensions
    on every variable as before. *)
Theorem remove_numbers_keeps_coords (D : Dataset) :
  coords_are_variables D →
  let D' := dataset_after D (remove_numbers_in_names D) in
  coord_names D' = coord_names D
  ∧ coords D' = coords D
  ∧ dims_of D' = dims_of D.
Proof.
  intros Hwf. cbn zeta.
  destruct (remove_numbers_in_names D) as [D'|e] eqn:HD'; [|done].
  unfold remove_numbers_in_names in HD'.
  apply remove_numbers_loop_frame in HD' as (? & ? & ? & ?); [done|done|].
  intros n [Hn _]%list_elem_of_filter. done.
Qed.

Lemma remove_numbers_keeps_coords_witness :
  coords_are_variables cruise_one_temp
  ∧ remove_numbers_in_names cruise_one_temp
    = Ok (XrDataset
            [ ("TIME", XrVariable ["TIME"] [] [0%float; 1%float]);
              ("PRES", XrVariable ["PRES"] [] [10%float; 20%float]);
              ("NISKIN2", XrVariable ["TIME"] [] [0%float; 1%float]);
              ("TEMP", profile_var [1%float; 2%float; 3%float; 4%float]);
              ("PSAL", profile_var [34%float; 34%float; 35%float; 35%float]) ]
            ["TIME"; "PRES"; "NISKIN2"]
            [ ("title", AStr "Test cruise") ])
  ∧ coords (dataset_after cruise_one_temp
              (remove_numbers_in_names cruise_one_temp))
    = coords cruise_one_temp.
Proof.
  assert (coords_are_variables cruise_one_temp) as Hwf
    by (vm_compute; repeat constructor).
  split; [exact Hwf|]. split; [vm_compute; reflexivity|].
  exact (proj1 (proj2 (remove_numbers_keeps_coords cruise_one_temp Hwf))).
Defined.

(** C1, on the code: with two temperature sensors the normalizer does not
    leave the colliding names alone.  The list of duplicates holds stripped
    forms, so neither [TEMP1] nor [TEMP2] is found in it; [TEMP1] is renamed
    to [TEMP], and renaming [TEMP2] to the same name is refused by the
    dataset. *)
Theorem remove_numbers_collision_raises :
  remove_numbers_in_names cruise_two_temps
  = Raise (ValueError "the new name 'TEMP' conflicts").
Proof. vm_compute. reflexivity. Qed.

(** *** Every collision makes the normalizer raise *)

Lemma strip_digits_idem s : strip_digits (strip_digits s) = strip_digits s.
Proof.
  induction s as [|c s IH]; [done|]. simpl.
  destruct (is_digit c) eqn:Hc; [done|]. simpl. by rewrite Hc, IH.
Qed.

Lemma keys_Counter_from (c : dict nat) (l : list string) k :
  k ∈ keys (foldl (λ c k, dict_set k (S (default 0 (dict_get k c))) c) c l) →
  k ∈ keys c ∨ k ∈ l.
Proof.
  revert c. induction l as [|a l IH]; intros c; simpl; [by left|].
  intros [Hk|Hk]%IH; [|right; by right].
  rewrite keys_dict_set in Hk. destruct (decide (a ∈ keys c)); [by left|].
  apply elem_of_app in Hk as [?| ->%list_elem_of_singleton]; [by left|].
  right. by left.
Qed.

Lemma duplicates_are_stripped (names : list string) n :
  n ∈ (filter (λ ic : string * nat, 1 < ic.2)
         (Counter (strip_digits <$> names))).*1 →
  strip_digits n = n.
Proof.
  intros ([k c] & -> & [_ Hkc]%list_elem_of_filter)%list_elem_of_fmap.
  assert (k ∈ keys (Counter (strip_digits <$> names))) as Hk.
  { apply list_elem_of_fmap. by exists (k, c). }
  apply keys_Counter_from in Hk as [Hk|Hk]; [by apply elem_of_nil in Hk|].
  apply list_elem_of_fmap in Hk as (m & -> & _). apply strip_digits_idem.
Qed.

Section collision.

Variable duplicates : list string.
Variable s : string.
Hypothesis s_stripped : strip_digits s = s.

(** Once a variable is called [s], one stays so. *)
Lemma stripped_name_stays D n D' :
  rename_step duplicates D n = Ok D' → s ∈ keys (variables D) → s ∈ keys (variables D').
Proof.
  unfold rename_step. destruct (decide (n ∉ duplicates)); [|by intros [= <-]].
  intros (_ & -> & _)%rename_vars_Ok Hs. cbn [variables].
  rewrite keys_rename_entries. apply list_elem_of_fmap. exists s.
  split; [|done]. unfold rename_key.
  destruct (decide (s = n)) as [<-|]; done.
Qed.

(** A second name stripping to [s] cannot be renamed. *)
Lemma rename_onto_taken_name D n :
  s ∈ keys (variables D) → n ≠ s → strip_digits n = s → n ∉ duplicates →
  ∃ e, rename_step duplicates D n = Raise e.
Proof.
  intros Hs Hne Hn Hdup. unfold rename_step. rewrite decide_True by done.
  cbn zeta. rewrite Hn.
  destruct (rename_vars D n s) as [D'|e] eqn:HD'; [|by exists e].
  apply rename_vars_Ok in HD' as (Hin & _ & Hnd). exfalso. apply Hne.
  apply (NoDup_fmap_inj_on _ _ _ _ Hnd Hin Hs). unfold rename_key.
  rewrite decide_True by done. by rewrite decide_False.
Qed.

Lemma taken_name_raises l D n :
  s ∈ keys (variables D) → n ∈ l →
  n ≠ s → strip_digits n = s → n ∉ duplicates →
  ∃ e, for_each (rename_step duplicates) D l = Raise e.
Proof.
  intros Hs Hn Hne Hstrip Hdup. revert D Hs.
  induction l as [|x l IH]; intros D Hs; [by apply elem_of_nil in Hn|].
  cbn [for_each]. destruct (rename_step duplicates D x) as [D1|e] eqn:HD1; [|by exists e].
  cbn [mbind result_bind].
  apply elem_of_cons in Hn as [->|Hn].
  - destruct (rename_onto_taken_name D x Hs Hne Hstrip Hdup) as [e He].
    congruence.
  - apply IH; [done|]. by apply (stripped_name_stays D x).
Qed.

Lemma two_names_raise l D n1 n2 :
  n1 ∈ l → n2 ∈ l → n1 ≠ n2 →
  n1 ≠ s → strip_digits n1 = s → n1 ∉ duplicates →
  n2 ≠ s → strip_digits n2 = s → n2 ∉ duplicates →
  ∃ e, for_each (rename_step duplicates) D l = Raise e.
Proof.
  intros H1 H2 Hne Hne1 Hs1 Hd1 Hne2 Hs2 Hd2. revert D.
  induction l as [|x l IH]; intros D; [by apply elem_of_nil in H1|].
  cbn [for_each]. destruct (rename_step duplicates D x) as [D1|e] eqn:HD1; [|by exists e].
  cbn [mbind result_bind].
  assert (∀ n, n ≠ s → strip_digits n = s → n ∉ duplicates → x = n →
            s ∈ keys (variables D1)) as Hrenamed.
  { intros n Hn Hsn Hdn ->. unfold rename_step in HD1.
    rewrite decide_True in HD1 by done. cbn zeta in HD1. rewrite Hsn in HD1.
    apply rename_vars_Ok in HD1 as (Hin & -> & _). cbn [variables].
    rewrite keys_rename_entries. apply list_elem_of_fmap. exists n.
    split; [|done]. unfold rename_key. by rewrite decide_True. }
  apply elem_of_cons in H1 as [->|H1]; apply elem_of_cons in H2 as [->|H2].
  - done.
  - apply (taken_name_raises l D1 n2); eauto.
  - apply (taken_name_raises l D1 n1); eauto.
  - by apply IH.
Qed.

End collision.

(** Whenever two distinct data variables share a stripped form, the
    normalizer raises: the colliding group is never left in place. *)
Lemma remove_numbers_raises_on_collision (D : Dataset) (n1 n2 : string) :
  n1 ∈ data_vars D → n2 ∈ data_vars D → n1 ≠ n2 →
  strip_digits n1 = strip_digits n2 →
  ∃ e, remove_numbers_in_names D = Raise e.
Proof.
  intros H1 H2 Hne Hstrip. unfold remove_numbers_in_names.
  set (dups := (filter _ (Counter _)).*1).
  assert (∀ n, strip_digits n ≠ n → n ∉ dups) as Hdups.
  { intros n Hn Hin. apply Hn. by apply (duplicates_are_stripped (data_vars D)). }
  assert (∀ n, n ∈ data_vars D → n ∈ keys (variables D)) as Hkeys.
  { by intros n [_ ?]%list_elem_of_filter. }
  pose proof (strip_digits_idem n1) as Hs.
  destruct (decide (n1 = strip_digits n1)) as [E1|E1].
  - apply (taken_name_raises dups (strip_digits n1) Hs _ D n2); auto.
    + rewrite <- E1. auto.
    + congruence.
    + apply Hdups. congruence.
  - destruct (decide (n2 = strip_digits n1)) as [E2|E2].
    + apply (taken_name_raises dups (strip_digits n1) Hs _ D n1); auto.
      rewrite <- E2. auto.
    + apply (two_names_raise dups (strip_digits n1) Hs _ D n1 n2); auto.
      apply Hdups. congruence.
Qed.

(** *** Without collisions every data variable loses its digits *)

Lemma dict_set_fresh {V} k (v : V) (d : dict V) :
  k ∉ keys d → dict_set k v d = d ++ [(k, v)].
Proof.
  unfold keys. induction d as [|[k' v'] d IH]; [done|].
  rewrite fmap_cons, not_elem_of_cons. cbn [fst dict_set]. intros [Hne Hk].
  rewrite decide_False by done. by rewrite IH.
Qed.

Lemma Counter_from_counts_once (c : dict nat) (l : list string) :
  Forall (λ kc : string * nat, (kc.2 ≤ 1)%nat) c → NoDup l →
  (∀ k, k ∈ l → k ∉ keys c) →
  Forall (λ kc : string * nat, (kc.2 ≤ 1)%nat)
    (foldl (λ c k, dict_set k (S (default 0 (dict_get k c))) c) c l).
Proof.
  revert c. induction l as [|a l IH]; intros c Hc Hnd Hfresh; [done|].
  apply NoDup_cons in Hnd as [Ha Hnd]. cbn [foldl].
  assert (a ∉ keys c) as Hac by (apply Hfresh; by left).
  rewrite (proj1 (dict_get_None_keys _ _) Hac). cbn [default from_option].
  rewrite dict_set_fresh by done. apply IH; [|done|].
  - apply Forall_app. split; [done|]. by repeat constructor.
  - intros k Hk. rewrite keys_app, not_elem_of_app. split.
    + apply Hfresh. by right.
    + cbn. rewrite list_elem_of_singleton. by intros ->.
Qed.

Lemma Counter_no_duplicates (l : list string) :
  NoDup l → (filter (λ ic : string * nat, 1 < ic.2) (Counter l)).*1 = [].
Proof.
  intros Hnd. rewrite filter_none; [done|].
  assert (Forall (λ kc : string * nat, (kc.2 ≤ 1)%nat) (Counter l)) as Hall.
  { apply Counter_from_counts_once; [constructor|done|].
    intros k _. apply not_elem_of_nil. }
  intros ic Hic. rewrite Forall_forall in Hall. specialize (Hall ic Hic). lia.
Qed.

Lemma rename_vars_loop_Ok old new (acc vs : dict xr_variable) :
  NoDup (keys acc ++ (rename_key old new <$> keys vs)) →
  for_each (λ acc kv,
      let name := if decide (kv.1 = old) then new else kv.1 in
      if decide (name ∈ keys acc)
      then Raise (ValueError ("the new name '" +:+ name +:+ "' conflicts"))
      else Ok (acc ++ [(name, kv.2)]))
    acc vs = Ok (acc ++ rename_entries old new vs).
Proof.
  revert acc. induction vs as [|[k v] vs IH]; intros acc Hnd; cbn [for_each].
  - by rewrite app_nil_r.
  - cbn [fst snd]. fold (rename_key old new k).
    unfold keys at 2 in Hnd. rewrite !fmap_cons in Hnd. cbn [fst] in Hnd.
    fold (keys vs) in Hnd.
    destruct (decide (rename_key old new k ∈ keys acc)) as [Hin|Hnin].
    + exfalso. apply NoDup_app in Hnd as (_ & Hdisj & _).
      apply (Hdisj _ Hin). by left.
    + cbn [mbind result_bind]. rewrite IH.
      * by rewrite <- app_assoc.
      * rewrite keys_app, <- app_assoc. done.
Qed.

Lemma rename_vars_succeeds D old new :
  old ∈ keys (variables D) →
  NoDup (rename_key old new <$> keys (variables D)) →
  rename_vars D old new
  = Ok (XrDataset (rename_entries old new (variables D))
          (rename_key old new <$> coord_names D) (attrs D)).
Proof.
  intros Hold Hnd. unfold rename_vars, _rename_vars.
  rewrite decide_True by done. by rewrite rename_vars_loop_Ok.
Qed.

Lemma rename_step_nil D n :
  rename_step [] D n = rename_vars D n (strip_digits n).
Proof. unfold rename_step. by rewrite decide_True by apply not_elem_of_nil. Qed.

Section no_collision.

Variable D : Dataset.
Hypothesis keys_NoDup : NoDup (keys (variables D)).
Hypothesis stripped_NoDup :
  NoDup (strip_names (data_vars D) <$> keys (variables D)).

Lemma data_var_is_variable k : k ∈ data_vars D → k ∈ keys (variables D).
Proof. by intros [_ ?]%list_elem_of_filter. Qed.

Lemma data_var_not_coord k : k ∈ data_vars D → k ∉ coord_names D.
Proof. by intros [? _]%list_elem_of_filter. Qed.

Lemma strip_names_inj a b :
  a ∈ keys (variables D) → b ∈ keys (variables D) →
  strip_names (data_vars D) a = strip_names (data_vars D) b → a = b.
Proof. apply NoDup_fmap_inj_on, stripped_NoDup. Qed.

(** A name that is the stripped form of a data variable is that variable. *)
Lemma stripped_form_taken k n :
  k ∈ data_vars D → n ∈ keys (variables D) → strip_digits k = n → k = n.
Proof.
  intros Hk Hn Hkn. apply strip_names_inj; [by apply data_var_is_variable|done|].
  unfold strip_names. rewrite decide_True by done.
  destruct (decide (n ∈ data_vars D)); [|done].
  by rewrite <- Hkn, strip_digits_idem.
Qed.

Lemma strip_names_step P n k :
  (∀ x, x ∈ P → x ∈ data_vars D) → n ∈ data_vars D → n ∉ P →
  k ∈ keys (variables D) →
  rename_key n (strip_digits n) (strip_names P k) = strip_names (P ++ [n]) k.
Proof.
  intros HP Hn HnP Hk. unfold rename_key, strip_names.
  destruct (decide (k ∈ P)) as [HkP|HkP].
  - rewrite (decide_True (P := k ∈ P ++ [n])) by (apply elem_of_app; auto).
    rewrite decide_False; [done|]. intros Hsk.
    assert (k = n) as -> by
      (apply stripped_form_taken; auto using data_var_is_variable).
    done.
  - destruct (decide (k = n)) as [->|Hne].
    + rewrite (decide_True (P := n ∈ P ++ [n])); [done|].
      apply elem_of_app. right. by left.
    + rewrite (decide_False (P := k ∈ P ++ [n])); [done|].
      intros [?|?%list_elem_of_singleton]%elem_of_app; done.
Qed.

Lemma strip_names_partial_NoDup P :
  (∀ x, x ∈ P → x ∈ data_vars D) →
  NoDup (strip_names P <$> keys (variables D)).
Proof.
  intros HP. apply NoDup_fmap_2_strong; [|done].
  intros a b Ha Hb. unfold strip_names.
  destruct (decide (a ∈ P)) as [HaP|HaP], (decide (b ∈ P)) as [HbP|HbP];
    intros Hab.
  - apply strip_names_inj; [done..|]. unfold strip_names.
    by rewrite !decide_True by auto.
  - by apply stripped_form_taken; auto.
  - symmetry. by apply stripped_form_taken; auto.
  - done.
Qed.

Lemma rename_all_loop l P Dc :
  variables Dc = (λ kv, (strip_names P kv.1, kv.2)) <$> variables D →
  coord_names Dc = coord_names D → attrs Dc = attrs D →
  (∀ x, x ∈ P → x ∈ data_vars D) →
  (∀ x, x ∈ l → x ∈ data_vars D ∧ x ∉ P) → NoDup l →
  for_each (rename_step []) Dc l
  = Ok (XrDataset
          ((λ kv, (strip_names (P ++ l) kv.1, kv.2)) <$> variables D)
          (coord_names D) (attrs D)).
Proof.
  revert P Dc. induction l as [|n l IH]; intros P Dc Hv Hc Ha HP Hl Hnd.
  - rewrite app_nil_r. destruct Dc. cbn in *. by subst.
  - apply NoDup_cons in Hnd as [Hnl Hnd].
    destruct (Hl n) as [Hn HnP]; [by left|].
    assert (keys (variables Dc) = strip_names P <$> keys (variables D)) as Hk.
    { rewrite Hv. unfold keys. rewrite <- !list_fmap_compose. done. }
    assert (rename_key n (strip_digits n) <$> keys (variables Dc)
            = strip_names (P ++ [n]) <$> keys (variables D)) as Hk'.
    { rewrite Hk, <- list_fmap_compose. apply list_fmap_ext.
      intros i k Hik. cbn. apply strip_names_step; [done..|].
      by apply list_elem_of_lookup_2 in Hik. }
    cbn [for_each]. rewrite rename_step_nil.
    rewrite rename_vars_succeeds.
    + cbn [mbind result_bind]. rewrite (IH (P ++ [n])).
      * by rewrite <- app_assoc.
      * cbn [variables]. rewrite Hv. unfold rename_entries.
        rewrite <- list_fmap_compose. apply list_fmap_ext.
        intros i [k v] Hik. cbn. f_equal. apply strip_names_step; [done..|].
        apply list_elem_of_lookup_2 in Hik.
        apply list_elem_of_fmap. by exists (k, v).
      * cbn [coord_names]. rewrite Hc. apply fmap_id_on.
        intros k Hk0. unfold rename_key. rewrite decide_False; [done|].
        intros ->. by apply (data_var_not_coord n).
      * done.
      * intros x [?| ->%list_elem_of_singleton]%elem_of_app; auto.
      * intros x Hx. destruct (Hl x) as [? ?]; [by right|].
        split; [done|]. rewrite elem_of_app, list_elem_of_singleton.
        intros [?| ->]; done.
      * done.
    + rewrite Hk. apply list_elem_of_fmap. exists n.
      split; [|by apply data_var_is_variable].
      unfold strip_names. by rewrite decide_False.
    + rewrite Hk'. apply strip_names_partial_NoDup.
      intros x [?| ->%list_elem_of_singleton]%elem_of_app; auto.
Qed.

(** On a dataset where stripping the digits of the data variables makes no
    two variable names equal, every data variable is renamed to its
    stripped form, in place. *)
Lemma remove_numbers_renames_all :
  remove_numbers_in_names D
  = Ok (XrDataset
          ((λ kv, (strip_names (data_vars D) kv.1, kv.2)) <$> variables D)
          (coord_names D) (attrs D)).
Proof.
  unfold remove_numbers_in_names.
  assert (NoDup (strip_digits <$> data_vars D)) as Hnd.
  { assert (strip_digits <$> data_vars D
            = strip_names (data_vars D) <$> data_vars D) as ->.
    { apply list_fmap_ext. intros i k Hk%list_elem_of_lookup_2.
      unfold strip_names. by rewrite decide_True. }
    eapply sublist_NoDup; [exact stripped_NoDup|].
    apply fmap_sublist, sublist_filter. }
  rewrite (Counter_no_duplicates _ Hnd).
  apply (rename_all_loop (data_vars D) [] D).
  - rewrite <- (list_fmap_id (variables D)) at 1. apply list_fmap_ext.
    by intros i [k v] _.
  - done.
  - done.
  - by intros x ?%elem_of_nil.
  - intros x Hx. split; [done|apply not_elem_of_nil].
  - apply NoDup_filter, keys_NoDup.
Qed.

End no_collision.

(** ** [drop_variables] *)

Lemma dict_get_NoDup {V} k (v : V) (d : dict V) :
  NoDup (keys d) → (k, v) ∈ d → dict_get k d = Some v.
Proof.
  unfold keys. induction d as [|[k' v'] d IH]; [by intros _ ?%elem_of_nil|].
  rewrite fmap_cons. cbn [fst dict_get].
  intros [Hk' Hnd]%NoDup_cons [[= -> ->]|Hin]%elem_of_cons.
  - by rewrite decide_True.
  - rewrite decide_False; [by apply IH|].
    intros ->. apply Hk'. apply list_elem_of_fmap. by exists (k, v).
Qed.

Lemma keys_filter_NoDup {V} (P : string * V → Prop) `{!∀ x, Decision (P x)}
    (d : dict V) :
  NoDup (keys d) → NoDup (keys (filter P d)).
Proof.
  unfold keys. induction d as [|[k v] d IH]; [done|].
  rewrite fmap_cons. intros [Hk Hnd]%NoDup_cons. rewrite filter_cons.
  destruct (decide (P (k, v))); [|by apply IH].
  rewrite fmap_cons. constructor; [|by apply IH].
  intros ([k' v'] & ? & [_ Hin]%list_elem_of_filter)%list_elem_of_fmap.
  simplify_eq/=. apply Hk. apply list_elem_of_fmap. by exists (k', v').
Qed.

Lemma drop_one D n :
  n ∈ keys (variables D) →
  drop D [n]
  = Ok (XrDataset (filter (λ kv, kv.1 ∉ [n]) (variables D))
          (filter (λ k, k ∈ keys (filter (λ kv : string * xr_variable,
                                            kv.1 ∉ [n]) (variables D)))
             (coord_names D))
          (attrs D)).
Proof.
  intros Hn. unfold drop. rewrite decide_True; [done|].
  by repeat constructor.
Qed.

Lemma filter_all {A} (P : A → Prop) `{!∀ x, Decision (P x)} (l : list A) :
  (∀ x, x ∈ l → P x) → filter P l = l.
Proof.
  induction l as [|a l IH]; intros Hall; [done|].
  rewrite filter_cons_True by (apply Hall; by left).
  f_equal. apply IH. intros x Hx. apply Hall. by right.
Qed.

(** The loop of the retain branch, from any point on. *)
Lemma retain_loop (retain_vars l : list string) (D : Dataset)
    (dropped : list string) :
  NoDup (keys (variables D)) → NoDup l →
  (∀ n, n ∈ l → n ∈ keys (variables D)) →
  ∃ D' dropped',
    for_each (λ Dd varnm,
        let D := Dd.1 in
        let dropped := Dd.2 in
        if decide (varnm ∉ retain_vars) then
          (v ← getitem D varnm;
           if decide ("PRES" ∈ v_dims v) then
             (D ← drop D [varnm];
              mret (D, dropped ++ [varnm]))
           else mret (D, dropped))
        else mret (D, dropped))
      (D, dropped) l = Ok (D', dropped')
    ∧ variables D'
      = filter (λ kv, ¬ (kv.1 ∈ l ∧ (kv.1 ∉ retain_vars)
                         ∧ "PRES" ∈ v_dims kv.2))
          (variables D)
    ∧ attrs D' = attrs D.
Proof.
  revert D dropped. induction l as [|n l IH]; intros D dropped Hnd Hl Hin.
  - exists D, dropped. split; [done|]. split; [|done].
    symmetry. apply filter_all. intros kv _ [?%elem_of_nil _]. done.
  - apply NoDup_cons in Hl as [Hn Hl].
    assert (n ∈ keys (variables D)) as Hnk by (apply Hin; by left).
    pose proof Hnk as [v Hv]%dict_get_Some_keys.
    assert (∀ v', (n, v') ∈ variables D → v' = v) as Huniq.
    { intros v' Hv'%dict_get_NoDup; [congruence|done]. }
    assert (∀ k, k ∈ l → k ∈ keys (variables D)) as Hin'
      by (intros k Hk; apply Hin; by right).
    cbn [for_each fst snd]. cbn zeta.
    destruct (decide (n ∉ retain_vars)) as [Hr|Hr];
      [rewrite (getitem_Some _ _ _ Hv); cbn [mbind result_bind mret result_ret];
       destruct (decide ("PRES" ∈ v_dims v)) as [Hp|Hp] |].
    + rewrite (drop_one _ _ Hnk). cbn [mbind result_bind mret result_ret].
      edestruct IH as (D' & dropped' & HD' & Hvars & Hattrs);
        [| exact Hl | | exists D', dropped'; split; [exact HD'|]; split].
      * cbn [variables]. by apply keys_filter_NoDup.
      * intros k Hk. cbn [variables].
        destruct (proj1 (list_elem_of_fmap _ _ _) (Hin' k Hk))
          as ([k' v0] & -> & Hkv).
        apply list_elem_of_fmap. exists (k', v0). split; [done|].
        apply list_elem_of_filter. split; [|done].
        simpl. intros ->%list_elem_of_singleton. done.
      * rewrite Hvars. cbn [variables]. rewrite list_filter_filter.
        apply filter_ext_in. intros [k v'] Hkv. cbn [fst snd].
        rewrite !elem_of_cons, elem_of_nil.
        destruct (decide (k = n)) as [->|Hne].
        -- rewrite (Huniq _ Hkv). naive_solver.
        -- naive_solver.
      * by rewrite Hattrs.
    + cbn [mbind result_bind mret result_ret].
      edestruct IH as (D' & dropped' & HD' & Hvars & Hattrs);
        [exact Hnd | exact Hl | exact Hin' |
         exists D', dropped'; split; [exact HD'|]; split; [|done]].
      rewrite Hvars. apply filter_ext_in. intros [k v'] Hkv. cbn [fst snd].
      rewrite elem_of_cons.
      destruct (decide (k = n)) as [->|Hne].
      * rewrite (Huniq _ Hkv). naive_solver.
      * naive_solver.
    + cbn [mbind result_bind mret result_ret].
      edestruct IH as (D' & dropped' & HD' & Hvars & Hattrs);
        [exact Hnd | exact Hl | exact Hin' |
         exists D', dropped'; split; [exact HD'|]; split; [|done]].
      rewrite Hvars. apply filter_ext_in. intros [k v'] Hkv. cbn [fst snd].
      rewrite elem_of_cons.
      destruct (decide (k = n)) as [->|Hne]; naive_solver.
Qed.

(** C4, as the code has it: on a dataset [D] with a retain list [R]
    - without a drop list, or with an empty one, [drop_variables] returns
      [D] without its data variables that carry the [PRES] dimension and
      are not in [R]; every variable without the [PRES] dimension, and
      every coordinate, stays;
    - with a non-empty drop list [L], the retain list plays no part: if
      every name of [L] is a variable of [D] the result is [D] without
      exactly the variables of [L], else the call raises. *)
Theorem drop_variables_spec (D : Dataset) (R : list string) :
  NoDup (keys (variables D)) →
  (∃ D', outcome (drop_variables D (Some R) None) = Ok D'
     ∧ outcome (drop_variables D (Some R) (Some [])) = Ok D'
     ∧ variables D'
       = filter (λ kv, ¬ ((kv.1 ∉ coord_names D) ∧ (kv.1 ∉ R)
                          ∧ "PRES" ∈ v_dims kv.2))
           (variables D)
     ∧ (∀ kv, kv ∈ variables D → "PRES" ∉ v_dims kv.2 → kv ∈ variables D')
     ∧ attrs D' = attrs D)
  ∧ (∀ n ns R',
       let L := n :: ns in
       drop_variables D R' (Some L) = drop_variables D (Some R) (Some L)
       ∧ (Forall (λ m, m ∈ keys (variables D)) L →
          ∃ D', outcome (drop_variables D (Some R) (Some L)) = Ok D'
            ∧ variables D' = filter (λ kv, kv.1 ∉ L) (variables D)
            ∧ attrs D' = attrs D)
       ∧ (¬ Forall (λ m, m ∈ keys (variables D)) L →
          ∃ e, outcome (drop_variables D (Some R) (Some L)) = Raise e)).
Proof.
  intros Hnd. split.
  - destruct (retain_loop R (data_vars D) D [] Hnd) as (D' & dr & HD' & Hv & Ha).
    + by apply NoDup_filter.
    + by intros n [_ ?]%list_elem_of_filter.
    + exists D'. unfold drop_variables. cbn [from_option] in HD' |- *.
      unfold id.
      rewrite outcome_bind, outcome_lift, HD'. outcome_steps.
      assert (variables D'
              = filter (λ kv, ¬ ((kv.1 ∉ coord_names D) ∧ (kv.1 ∉ R)
                                 ∧ "PRES" ∈ v_dims kv.2)) (variables D)) as Hv'.
      { rewrite Hv. apply filter_ext_in. intros [k v] Hkv. cbn [fst snd].
        unfold data_vars. rewrite list_elem_of_filter.
        assert (k ∈ keys (variables D))
          by (apply list_elem_of_fmap; by exists (k, v)).
        naive_solver. }
      split; [done|]. split; [done|]. split; [done|]. split; [|done].
      intros kv Hkv Hp. rewrite Hv'. apply list_elem_of_filter.
      split; [|done]. naive_solver.
  - intros n ns R' L. split; [done|].
    subst L. unfold drop_variables. cbn [from_option]. unfold id.
    rewrite !outcome_bind, outcome_lift. unfold drop. split.
    + intros Hall. rewrite decide_True by done.
      outcome_steps. eexists. split; [done|]. done.
    + intros Hall. rewrite decide_False by done. eexists. done.
Qed.

Lemma drop_variables_spec_witness :
  NoDup (keys (variables cruise_two_temps))
  ∧ ∃ D', outcome (drop_variables cruise_two_temps (Some ["TEMP1"]) None)
          = Ok D'
      ∧ keys (variables D') = ["TIME"; "PRES"; "TEMP1"; "STATION"].
Proof.
  assert (NoDup (keys (variables cruise_two_temps))) as Hnd
    by (apply (bool_decide_unpack _); vm_compute; exact I).
  split; [exact Hnd|].
  destruct (proj1 (drop_variables_spec cruise_two_temps ["TEMP1"] Hnd))
    as (D' & HD' & _ & Hv & _).
  exists D'. split; [exact HD'|]. rewrite Hv. vm_compute. reflexivity.
Defined.

(** C4, as stated, fails on an explicit drop list that is empty: nothing is
    listed, yet [TEMP2] and [PSAL1] go, and which variables go depends on the
    retain list. *)
Lemma drop_variables_empty_drop_list :
  (keys ∘ variables) <$> outcome_value
      (drop_variables cruise_two_temps (Some ["TEMP1"]) (Some []))
  = Some ["TIME"; "PRES"; "TEMP1"; "STATION"]
  ∧ (keys ∘ variables) <$> outcome_value
      (drop_variables cruise_two_temps (Some ["PSAL1"]) (Some []))
  = Some ["TIME"; "PRES"; "PSAL1"; "STATION"]
  ∧ keys (filter (λ kv, kv.1 ∉ @nil string) (variables cruise_two_temps))
  = ["TIME"; "PRES"; "TEMP1"; "TEMP2"; "PSAL1"; "STATION"].
Proof. vm_compute. done. Qed.

(** C9: an explicit drop list that is empty is the same call as one without
    a drop list, whatever the retain list, and a call that leaves the retain
    list out is a call with [TEMP1], [CNDC1], [PSAL1], [CHLA1]; so an empty
    drop request can remove depth-indexed variables, as it removes [TEMP2]
    from the example cruise. *)
Theorem drop_variables_empty_list_is_none :
  (∀ D retain_vars,
     drop_variables D retain_vars (Some []) = drop_variables D retain_vars None)
  ∧ (∀ D drop_vars,
       drop_variables D None drop_vars
       = drop_variables D (Some ["TEMP1"; "CNDC1"; "PSAL1"; "CHLA1"]) drop_vars)
  ∧ "TEMP2" ∈ data_vars cruise_two_temps
  ∧ (keys ∘ variables) <$> outcome_value
        (drop_variables cruise_two_temps None (Some []))
    = Some ["TIME"; "PRES"; "TEMP1"; "PSAL1"; "STATION"].
Proof.
  split; [done|]. split; [done|]. split; vm_compute; [|done].
  repeat constructor.
Qed.

(** ** [quick_metadata_check] *)

Lemma stdout_print_bind {B} line (k : unit → py B) :
  stdout (print line ≫= k) = line :: stdout (k tt).
Proof. done. Qed.

Lemma outcome_print_bind {B} line (k : unit → py B) :
  outcome (print line ≫= k) = outcome (k tt).
Proof. done. Qed.

Lemma stdout_lift_bind {A B} (a : A) (k : A → py B) :
  stdout (lift (Ok a) ≫= k) = stdout (k a).
Proof. done. Qed.

Lemma outcome_lift_bind {A B} (a : A) (k : A → py B) :
  outcome (lift (Ok a) ≫= k) = outcome (k a).
Proof. done. Qed.

Lemma returns_printing_bind {A B} P (m : py A) (k : A → py B) :
  returns_printing P m → (∀ a, returns_printing P (k a)) →
  returns_printing P (m ≫= k).
Proof.
  intros [[a Ha] Hm] Hk. destruct (Hk a) as [[b Hb] Hka]. split.
  - exists b. rewrite outcome_bind, Ha. done.
  - rewrite (stdout_bind_Ok _ _ _ Ha). by apply Forall_app.
Qed.

Lemma returns_printing_lift_bind {A B} P (a : A) (k : A → py B) :
  returns_printing P (k a) → returns_printing P (lift (Ok a) ≫= k).
Proof.
  intros [[b Hb] Hk]. split; [exists b; by rewrite outcome_lift_bind|].
  by rewrite stdout_lift_bind.
Qed.

Lemma returns_printing_print P line : P line → returns_printing P (print line).
Proof. intros HP. split; [by exists tt|]. by repeat constructor. Qed.

Lemma returns_printing_ret {A} P (a : A) : returns_printing P (mret a).
Proof. split; [by exists a|]. constructor. Qed.

Lemma returns_printing_lift {A} P (a : A) : returns_printing P (lift (Ok a)).
Proof. split; [by exists a|]. constructor. Qed.

Lemma returns_printing_for {A S} P (body : S → A → py S) (l : list A) s :
  (∀ s x, x ∈ l → returns_printing P (body s x)) →
  returns_printing P (py_for body s l).
Proof.
  revert s. induction l as [|x l IH]; intros s Hbody; cbn [py_for].
  - apply returns_printing_ret.
  - apply returns_printing_bind; [apply Hbody; by left|].
    intros s'. apply IH. intros s'' y Hy. apply Hbody. by right.
Qed.

Lemma list_remove_Ok x l : x ∈ l → ∃ l', list_remove x l = Ok l'.
Proof.
  induction l as [|y l IH]; [by intros ?%elem_of_nil|].
  cbn [list_remove]. destruct (decide (y = x)) as [->|Hne]; [by eexists|].
  intros [->|[l' ->]%IH]%elem_of_cons; [done|]. by eexists.
Qed.

Lemma list_remove_other x y l l' :
  list_remove x l = Ok l' → y ≠ x → y ∈ l → y ∈ l'.
Proof.
  revert l'. induction l as [|z l IH]; intros l'; [done|].
  cbn [list_remove]. destruct (decide (z = x)) as [->|Hne].
  - intros [= <-] Hy [->|?]%elem_of_cons; done.
  - destruct (list_remove x l) as [l''|] eqn:Hl''; [|done].
    intros [= <-] Hy [->|?]%elem_of_cons; [by left|].
    right. by apply IH.
Qed.

Lemma report_var_returns varnm ref v :
  returns_printing var_line (report_var varnm ref v).
Proof.
  unfold report_var. apply returns_printing_bind.
  - apply returns_printing_for. intros any_missing var_attr _.
    destruct (decide (var_attr ∉ keys (v_attrs v))).
    + apply returns_printing_bind; [|intros; apply returns_printing_ret].
      apply returns_printing_print. exists varnm. right. by eexists.
    + apply returns_printing_ret.
  - intros [|]; cbn [negb]; [apply returns_printing_ret|].
    apply returns_printing_print. exists varnm. by left.
Qed.

Lemma global_loop_run (present l : list string) :
  outcome (py_for (λ _ attr,
      if decide (attr ∉ present)
      then print (global_missing_line attr)
      else mret tt) tt l) = Ok tt
  ∧ stdout (py_for (λ _ attr,
      if decide (attr ∉ present)
      then print (global_missing_line attr)
      else mret tt) tt l)
    = global_missing_line <$> filter (λ attr, attr ∉ present) l.
Proof.
  induction l as [|a l [IHo IHs]]; [done|]. cbn [py_for].
  rewrite filter_cons. destruct (decide (a ∉ present)).
  - rewrite outcome_print_bind, stdout_print_bind, fmap_cons. by rewrite IHs.
  - split; [rewrite outcome_bind; by outcome_steps|].
    rewrite (stdout_bind_Ok _ _ tt) by done. done.
Qed.


(** ** [to_netcdf] *)

Lemma dict_get_reordered R (d : dict attr_value) k :
  dict_get k (reordered R d) = dict_get k d.
Proof.
  destruct (rebuild_reordered R d) as (r & Hr & Hk & Hg).
  unfold reordered. rewrite Hr.
  destruct (decide (k ∈ keys r)) as [Hin|Hnin]; [by apply Hg|].
  assert (k ∉ keys d) as Hd.
  { intros Hd. apply Hnin. rewrite Hk, elem_of_dedup_from, elem_of_reorder_list.
    split; [done|apply not_elem_of_nil]. }
  apply dict_get_None_keys in Hnin, Hd. congruence.
Qed.

Section export.

Variables Rg Rv : list string.
Variable Timestamp : Type.
Variable strftime_Y_m_d datetime_to_ISO8601 : Timestamp → string.
Variable str_float : float → string.
Variable check_file : string → py unit.
Variables now_created now_history : Timestamp.

Local Abbreviation stamped :=
  (stamped Rg Rv Timestamp datetime_to_ISO8601 now_created).
Local Abbreviation export_run :=
  (to_netcdf Rg Rv Timestamp strftime_Y_m_d datetime_to_ISO8601 str_float
     check_file now_created now_history).
Local Abbreviation default_file_name := (default_file_name str_float).

Lemma reorder_stamped D :
  reorder_attrs Rg Rv
    (add_now_as_date_created Timestamp datetime_to_ISO8601 now_created D)
  = Ok (stamped D).
Proof. unfold stamped. by rewrite reorder_attrs_eq. Qed.

Lemma stamped_attr D k :
  dict_get k (attrs (stamped D))
  = if decide ("date_created" = k)
    then Some (AStr (datetime_to_ISO8601 now_created))
    else dict_get k (attrs D).
Proof.
  unfold stamped. rewrite reorder_attrs_eq. cbn [dataset_after attrs].
  rewrite dict_get_reordered. unfold add_now_as_date_created.
  cbn [attrs set_attrs]. apply dict_get_set.
Qed.



End export.


Example metadata_report_one_temp :
  stdout (quick_metadata_check example_global_attrs_ordered
            example_variable_attrs_necessary cruise_one_temp)
  = [ "--  QUICK METADATA CHECK --";
      "NOTE: Not comprehensive! A true check is done on export to netcdf.";
      nl +:+ "# GLOBAL #";
      "- Possibly missing id";
      "- Possibly missing summary";
      "- Possibly missing history";
      nl +:+ "# VARIABLE #";
      "- PRES: Possibly missing standard_name";
      "- PRES: Possibly missing units";
      "- PRES: Possibly missing long_name";
      "- PRES: Possibly missing axis";
      "- PRES: Possibly missing positive";
      "- TEMP1: Possibly missing standard_name";
      "- TEMP1: Possibly missing long_name";
      "- TEMP1: Possibly missing processing_level";
      "- TEMP1: Possibly missing QC_indicator";
      "- PSAL1: Possibly missing standard_name";
      "- PSAL1: Possibly missing long_name";
      "- PSAL1: Possibly missing processing_level";
      "- PSAL1: Possibly missing QC_indicator" ].
Proof. vm_compute. reflexivity. Qed.



(** ** [calibrate_chl] *)

Lemma dict_get_drop {V} k (names : list string) (d : dict V) :
  dict_get k (filter (λ kv, kv.1 ∉ names) d)
  = if decide (k ∈ names) then None else dict_get k d.
Proof.
  induction d as [|[k' v] d IH]; [by destruct (decide (k ∈ names))|].
  rewrite filter_cons. cbn [fst dict_get].
  destruct (decide (k' ∉ names)) as [Hk'|Hk'%dec_stable]; cbn [dict_get].
  - rewrite IH. destruct (decide (k' = k)) as [->|]; [|done].
    by rewrite decide_False.
  - rewrite IH. destruct (decide (k' = k)) as [->|]; [|done].
    by rewrite !decide_True.
Qed.

Lemma set_var_attr_Some D name key item v :
  dict_get name (variables D) = Some v →
  set_var_attr D name key item
  = Ok (setitem D name
          (XrVariable (v_dims v) (dict_set key item (v_attrs v)) (v_data v))).
Proof. intros Hv. unfold set_var_attr. by rewrite (getitem_Some _ _ _ Hv). Qed.

Lemma set_var_attr_loop (name : string) (l : dict attr_value) (D : Dataset)
    (v : xr_variable) :
  dict_get name (variables D) = Some v →
  ∃ D',
    for_each (λ D kv, set_var_attr D name kv.1 kv.2) D l = Ok D'
    ∧ dict_get name (variables D')
      = Some (XrVariable (v_dims v) (dict_update (v_attrs v) l) (v_data v))
    ∧ (∀ k, k ≠ name → dict_get k (variables D') = dict_get k (variables D))
    ∧ attrs D' = attrs D.
Proof.
  revert D v. induction l as [|[key item] l IH]; intros D v Hv.
  - exists D. destruct v. done.
  - cbn [for_each fst snd]. rewrite (set_var_attr_Some _ _ _ _ _ Hv).
    cbn [mbind result_bind].
    edestruct (IH (setitem D name
                     (XrVariable (v_dims v) (dict_set key item (v_attrs v))
                        (v_data v)))) as (D' & HD' & Hget & Hother & Hattrs).
    + cbn [setitem set_variables variables]. rewrite dict_get_set.
      by rewrite decide_True.
    + exists D'. split; [exact HD'|]. split; [exact Hget|]. split; [|done].
      intros k Hk. rewrite (Hother k Hk).
      cbn [setitem set_variables variables]. rewrite dict_get_set.
      by rewrite decide_False.
Qed.

(** C8, as the code has it: on a dataset that has the input variable, and
    for an output name (the one given, or the one derived from the input
    name) different from the input name, [calibrate_chl] returns a dataset
    in which the output variable has the input's dimensions, the data
    [A * x + B] for every input value [x], and the input's attributes
    updated with the calibration attributes: the long name, the formula
    text and the two coefficients.  The input variable is gone exactly when
    removal is requested, and unchanged otherwise; no other variable and no
    global attribute changes. *)
Theorem calibrate_chl_spec (D : Dataset) (A B : float)
    (chl_name_in : string) (chl_name_out : option string)
    (verbose remove_uncal : bool) (v_in : xr_variable) :
  dict_get chl_name_in (variables D) = Some v_in →
  chl_name_out_of chl_name_in chl_name_out ≠ chl_name_in →
  let out := chl_name_out_of chl_name_in chl_name_out in
  ∃ D',
    outcome (calibrate_chl D A B chl_name_in chl_name_out verbose remove_uncal)
    = Ok D'
    ∧ dict_get out (variables D')
      = Some (XrVariable (v_dims v_in)
                (dict_update (v_attrs v_in) (calibration_attrs A B))
                (linear A B <$> v_data v_in))
    ∧ dict_get chl_name_in (variables D')
      = (if remove_uncal then None else Some v_in)
    ∧ (∀ k, k ≠ out → k ≠ chl_name_in →
         dict_get k (variables D') = dict_get k (variables D))
    ∧ attrs D' = attrs D.
Proof.
  intros Hin Hne out. unfold calibrate_chl. fold out.
  rewrite (getitem_Some _ _ _ Hin), outcome_lift_bind.
  set (D1 := setitem D out _).
  assert (dict_get chl_name_in (variables D1) = Some v_in) as Hin1.
  { unfold D1. cbn [setitem set_variables variables].
    rewrite dict_get_set. by rewrite decide_False. }
  assert (dict_get out (variables D1)
          = Some (XrVariable (v_dims v_in) [] (linear A B <$> v_data v_in)))
    as Hout1.
  { unfold D1. cbn [setitem set_variables variables].
    rewrite dict_get_set. by rewrite decide_True. }
  rewrite (getitem_Some _ _ _ Hin1), outcome_lift_bind.
  rewrite (set_var_attrs_Some _ _ _ _ Hout1), outcome_lift_bind.
  cbn [v_dims v_data].
  set (D2 := setitem D1 out _).
  destruct (set_var_attr_loop out (calibration_attrs A B) D2
              (XrVariable (v_dims v_in) (v_attrs v_in)
                 (linear A B <$> v_data v_in)))
    as (D3 & HD3 & Hout3 & Hother3 & Hattrs3).
  { unfold D2. cbn [setitem set_variables variables].
    rewrite dict_get_set. by rewrite decide_True. }
  rewrite HD3, outcome_lift_bind.
  assert (∀ k, k ≠ out → dict_get k (variables D3) = dict_get k (variables D))
    as Hother.
  { intros k Hk. rewrite (Hother3 k Hk). unfold D2, D1.
    cbn [setitem set_variables variables].
    rewrite !dict_get_set. by rewrite !decide_False. }
  assert (dict_get chl_name_in (variables D3) = Some v_in) as Hin3
    by (rewrite Hother; done).
  destruct remove_uncal.
  - rewrite drop_one by (apply dict_get_Some_keys; by rewrite Hin3).
    outcome_steps. eexists. split; [destruct verbose; by outcome_steps|].
    cbn [variables attrs]. rewrite !dict_get_drop.
    split_and!.
    + rewrite decide_False, Hout3 by (rewrite list_elem_of_singleton; done).
      done.
    + rewrite decide_True by (by apply list_elem_of_singleton). done.
    + intros k Hk1 Hk2. rewrite dict_get_drop.
      rewrite decide_False by (rewrite list_elem_of_singleton; done).
      by apply Hother.
    + done.
  - outcome_steps. exists D3.
    split; [destruct verbose; by outcome_steps|].
    split_and!; [done|done| |done].
    intros k Hk _. by apply Hother.
Qed.

Lemma calibration_attrs_overlay (a : dict attr_value) (A B : float) :
  let a' := dict_update a (calibration_attrs A B) in
  dict_get "calibration_formula" a'
  = Some (AStr "chla_calibrated = A * chla_from_ctd + B")
  ∧ dict_get "coefficient_A" a' = Some (AFloat A)
  ∧ dict_get "coefficient_B" a' = Some (AFloat B)
  ∧ (∀ k, k ∉ keys (calibration_attrs A B) → dict_get k a' = dict_get k a).
Proof.
  cbn zeta. unfold dict_update, calibration_attrs. cbn [foldl fst snd].
  rewrite !dict_get_set. split_and!; [done..|].
  intros k Hk. rewrite !dict_get_set.
  repeat (rewrite decide_False;
          [|intros <-; apply Hk; vm_compute; repeat constructor]).
  done.
Qed.

(** *** The derived output name is never the input name *)

Lemma str_length_app s1 s2 :
  String.length (s1 +:+ s2) = String.length s1 + String.length s2.
Proof.
  induction s1 as [|c s1 IH]; [done|].
  change (String c s1 +:+ s2) with (String c (s1 +:+ s2)).
  cbn [String.length]. by rewrite IH.
Qed.

Lemma str_replace_from_length (old s : string) (skip : nat) :
  (String.length (str_replace_from skip old EmptyString s)
   ≤ String.length s)%nat.
Proof.
  revert skip. induction s as [|c s IH]; intros skip; [done|].
  cbn [str_replace_from String.length]. destruct skip as [|skip].
  - destruct (String.prefix old (String c s)).
    + change (EmptyString +:+ ?x) with x.
      specialize (IH (String.length old - 1)). lia.
    + cbn [String.length]. specialize (IH 0). lia.
  - specialize (IH skip). lia.
Qed.

Lemma str_replace_shorter (old s : string) :
  old ≠ EmptyString → str_contains old s = true →
  (String.length (str_replace old EmptyString s) < String.length s)%nat.
Proof.
  intros Hold. unfold str_replace.
  induction s as [|c s IH]; cbn [str_contains str_replace_from String.length].
  - destruct old; [done|]. done.
  - destruct (String.prefix old (String c s)).
    + intros _. change (EmptyString +:+ ?x) with x.
      pose proof (str_replace_from_length old s (String.length old - 1)). lia.
    + cbn [orb String.length]. intros Hc%IH. lia.
Qed.

Lemma chl_name_out_default_differs (chl_name_in : string) :
  chl_name_out_of chl_name_in None ≠ chl_name_in
  ∧ chl_name_out_of chl_name_in (Some EmptyString) ≠ chl_name_in.
Proof.
  assert (chl_name_out_of chl_name_in None ≠ chl_name_in) as Hne; [|done].
  unfold chl_name_out_of.
  destruct (str_contains "_instr" chl_name_in) eqn:Hc; intros Heq.
  - apply (str_replace_shorter "_instr") in Hc; [|done].
    rewrite Heq in Hc. lia.
  - apply (f_equal String.length) in Heq. rewrite str_length_app in Heq.
    cbn [String.length] in Heq. lia.
Qed.

Lemma calibrate_chl_spec_witness :
  dict_get "CHLA1_instr" (variables cast_chla)
  = Some (XrVariable ["PRES"]
            [("units", AStr "mg m-3"); ("long_name", AStr "Chlorophyll-A")]
            [1%float; 2.5%float])
  ∧ chl_name_out_of "CHLA1_instr" None ≠ "CHLA1_instr"
  ∧ ∃ D',
      outcome (calibrate_chl cast_chla 2%float 0.5%float "CHLA1_instr" None
                 true true) = Ok D'
      ∧ dict_get "CHLA1" (variables D')
        = Some (XrVariable ["PRES"]
                  [ ("units", AStr "mg m-3");
                    ("long_name",
                     AStr "Chlorophyll-A concentration calibrated against water sample measurements");
                    ("calibration_formula",
                     AStr "chla_calibrated = A * chla_from_ctd + B");
                    ("coefficient_A", AFloat 2%float);
                    ("coefficient_B", AFloat 0.5%float) ]
                  [2.5%float; 5.5%float])
      ∧ dict_get "CHLA1_instr" (variables D') = None.
Proof.
  assert (dict_get "CHLA1_instr" (variables cast_chla)
          = Some (XrVariable ["PRES"]
                    [("units", AStr "mg m-3"); ("long_name", AStr "Chlorophyll-A")]
                    [1%float; 2.5%float])) as Hin by reflexivity.
  assert (chl_name_out_of "CHLA1_instr" None ≠ "CHLA1_instr") as Hne
    by (vm_compute; discriminate).
  split; [exact Hin|]. split; [exact Hne|].
  destruct (calibrate_chl_spec cast_chla 2%float 0.5%float "CHLA1_instr" None
              true true _ Hin Hne) as (D' & HD' & Hout & Hgone & _).
  exists D'. split; [exact HD'|]. split; [|exact Hgone].
  change (chl_name_out_of "CHLA1_instr" None) with "CHLA1" in Hout.
  rewrite Hout. vm_compute. reflexivity.
Defined.

(** C8, as stated, fails when the output name given is the input name and
    removal is requested: the calibrated variable is dropped with the
    uncalibrated one, and the dataset returned has neither. *)
Lemma calibrate_chl_same_name_removed :
  (keys ∘ variables) <$> outcome_value
      (calibrate_chl cast_chla 2%float 0.5%float "CHLA1_instr"
         (Some "CHLA1_instr") false true)
  = Some ["PRES"].
Proof. vm_compute. reflexivity. Qed.

(** Without removal, the same call overwrites the input and loses its
    attributes: the copy is taken from the variable just assigned. *)
Example calibrate_chl_same_name_kept :
  (dict_get "CHLA1_instr" ∘ variables) <$> outcome_value
      (calibrate_chl cast_chla 2%float 0.5%float "CHLA1_instr"
         (Some "CHLA1_instr") false false)
  = Some (Some (XrVariable ["PRES"] (calibration_attrs 2%float 0.5%float)
                  [2.5%float; 5.5%float])).
Proof. vm_compute. reflexivity. Qed.

(** * Further properties of the code *)

(** ** The name normalizer: when it returns, and what *)

(** X1: whenever two different data variables have the same digit-stripped
    name, [remove_numbers_in_names] raises. *)
Theorem normalizer_raises_on_collision (D : Dataset) (n1 n2 : string) :
  n1 ∈ data_vars D → n2 ∈ data_vars D → n1 ≠ n2 →
  strip_digits n1 = strip_digits n2 →
  ∃ e, remove_numbers_in_names D = Raise e.
Proof. apply remove_numbers_raises_on_collision. Qed.

Lemma normalizer_raises_on_collision_witness :
  "TEMP1" ∈ data_vars cruise_two_temps ∧ "TEMP2" ∈ data_vars cruise_two_temps
  ∧ "TEMP1" ≠ "TEMP2" ∧ strip_digits "TEMP1" = strip_digits "TEMP2"
  ∧ ∃ e, remove_numbers_in_names cruise_two_temps = Raise e.
Proof.
  assert ("TEMP1" ∈ data_vars cruise_two_temps) as H1
    by (vm_compute; repeat constructor).
  assert ("TEMP2" ∈ data_vars cruise_two_temps) as H2
    by (vm_compute; repeat constructor).
  assert ("TEMP1" ≠ "TEMP2") as H3 by discriminate.
  assert (strip_digits "TEMP1" = strip_digits "TEMP2") as H4 by reflexivity.
  split_and!; [exact H1|exact H2|exact H3|exact H4|].
  exact (normalizer_raises_on_collision cruise_two_temps _ _ H1 H2 H3 H4).
Defined.

Lemma name_stays (duplicates : list string) (k : string) D n D' :
  rename_step duplicates D n = Ok D' → n ≠ k →
  k ∈ keys (variables D) → k ∈ keys (variables D').
Proof.
  unfold rename_step. destruct (decide (n ∉ duplicates)); [|by intros [= <-]].
  intros (_ & -> & _)%rename_vars_Ok Hne Hk. cbn [variables].
  rewrite keys_rename_entries. apply list_elem_of_fmap. exists k.
  split; [|done]. unfold rename_key. by rewrite decide_False.
Qed.

(** A data variable whose stripped name is the name of a variable that is
    not renamed cannot be renamed. *)
Lemma clash_raises (duplicates : list string) (k : string) l D n0 :
  k ∈ keys (variables D) → (∀ n, n ∈ l → n ≠ k) → n0 ∈ l →
  strip_digits n0 = k → n0 ∉ duplicates →
  ∃ e, for_each (rename_step duplicates) D l = Raise e.
Proof.
  intros Hk Hl Hn0 Hstrip Hdup. revert D Hk.
  induction l as [|x l IH]; intros D Hk; [by apply elem_of_nil in Hn0|].
  cbn [for_each].
  destruct (rename_step duplicates D x) as [D1|e] eqn:HD1; [|by exists e].
  cbn [mbind result_bind].
  apply elem_of_cons in Hn0 as [->|Hn0].
  - assert (x ≠ k) as Hxk by (apply Hl; by left).
    destruct (rename_onto_taken_name duplicates k D x Hk Hxk Hstrip Hdup)
      as [e He].
    congruence.
  - apply IH; [intros n Hn; apply Hl; by right|done|].
    apply (name_stays duplicates k D x); [done|apply Hl; by left|done].
Qed.

Lemma not_data_var_is_coord D k :
  k ∈ keys (variables D) → k ∉ data_vars D → k ∈ coord_names D.
Proof.
  intros Hk Hnd. destruct (decide (k ∈ coord_names D)); [done|].
  exfalso. apply Hnd. by apply list_elem_of_filter.
Qed.

Lemma normalizer_returns_distinct (D D' : Dataset) :
  NoDup (keys (variables D)) → remove_numbers_in_names D = Ok D' →
  NoDup (strip_names (data_vars D) <$> keys (variables D)).
Proof.
  intros Hnd HD'. apply NoDup_fmap_2_strong; [|done].
  intros a b Ha Hb Hab. destruct (decide (a = b)) as [|Hne]; [done|].
  exfalso.
  assert (∀ x y, x ∈ data_vars D → y ∉ data_vars D → y ∈ keys (variables D) →
            x ≠ y → strip_digits x = y → False) as Hcoord.
  { intros x y Hx Hy Hyk Hxy Hs. unfold remove_numbers_in_names in HD'.
    set (dups := (filter _ (Counter _)).*1) in HD'.
    assert (∀ n, n ∈ data_vars D → n ≠ y) as Hl by (intros n Hn ->; done).
    assert (x ∉ dups) as Hdup.
    { intros Hin. apply Hxy.
      apply (duplicates_are_stripped (data_vars D)) in Hin. congruence. }
    destruct (clash_raises dups y (data_vars D) D x Hyk Hl Hx Hs Hdup)
      as [e He].
    change (for_each (rename_step dups) D (data_vars D) = Ok D') in HD'.
    congruence. }
  unfold strip_names in Hab.
  destruct (decide (a ∈ data_vars D)) as [Hda|Hda],
           (decide (b ∈ data_vars D)) as [Hdb|Hdb].
  - destruct (remove_numbers_raises_on_collision D a b Hda Hdb Hne Hab)
      as [e He].
    congruence.
  - by apply (Hcoord a b).
  - apply (Hcoord b a); [done..| |done]. by intros ->.
  - done.
Qed.



Lemma keys_with_stripped_names (P : list string) (vs : dict xr_variable) :
  keys ((λ kv, (strip_names P kv.1, kv.2)) <$> vs) = strip_names P <$> keys vs.
Proof. unfold keys. rewrite <- !list_fmap_compose. done. Qed.

(** After a successful pass, the data variables have no digit left. *)
Lemma stripped_data_var_fixed (D : Dataset) (k' : string) :
  k' ∈ strip_names (data_vars D) <$> keys (variables D) →
  k' ∉ coord_names D → strip_digits k' = k'.
Proof.
  intros (k & -> & Hk)%list_elem_of_fmap Hc. unfold strip_names in *.
  destruct (decide (k ∈ data_vars D)) as [Hd|Hd].
  - apply strip_digits_idem.
  - exfalso. apply Hc. by apply not_data_var_is_coord.
Qed.

(** X3: a second pass of the normalizer changes nothing.  On a dataset
    with distinct variable names, if [remove_numbers_in_names] returns a
    dataset, it returns that same dataset when applied to it. *)
Theorem normalizer_idempotent (D D' : Dataset) :
  NoDup (keys (variables D)) →
  remove_numbers_in_names D = Ok D' →
  remove_numbers_in_names D' = Ok D'.
Proof.
  intros Hnd HD'.
  pose proof (normalizer_returns_distinct D D' Hnd HD') as Hs.
  rewrite (remove_numbers_renames_all D Hnd Hs) in HD'.
  injection HD' as <-.
  set (D1 := XrDataset _ _ _).
  assert (keys (variables D1)
          = strip_names (data_vars D) <$> keys (variables D)) as Hk
    by apply keys_with_stripped_names.
  assert (∀ k, k ∈ keys (variables D1) →
            strip_names (data_vars D1) k = k) as Hfix.
  { intros k Hk1. unfold strip_names.
    destruct (decide (k ∈ data_vars D1)) as [Hd|]; [|done].
    apply (stripped_data_var_fixed D); [by rewrite <- Hk|].
    by apply list_elem_of_filter in Hd as [? _]. }
  rewrite remove_numbers_renames_all.
  - rewrite fmap_id_on; [done|]. intros [k v] Hkv. cbn [fst snd].
    f_equal. apply Hfix. apply list_elem_of_fmap. by exists (k, v).
  - by rewrite Hk.
  - rewrite fmap_id_on by done. by rewrite Hk.
Qed.

Lemma normalizer_idempotent_witness :
  NoDup (keys (variables cruise_one_temp))
  ∧ ∃ D', remove_numbers_in_names cruise_one_temp = Ok D'
      ∧ keys (variables D') = ["TIME"; "PRES"; "NISKIN2"; "TEMP"; "PSAL"]
      ∧ remove_numbers_in_names D' = Ok D'.
Proof.
  assert (NoDup (keys (variables cruise_one_temp))) as Hnd
    by (apply (bool_decide_unpack _); vm_compute; exact I).
  split; [exact Hnd|]. eexists. split; [vm_compute; reflexivity|].
  split; [reflexivity|].
  apply (normalizer_idempotent cruise_one_temp _ Hnd).
  vm_compute. reflexivity.
Defined.

(** ** Profile variables *)

Lemma is_profile_Some (d : Dataset) n v :
  dict_get n (variables d) = Some v →
  is_profile d n ↔ "PRES" ∈ v_dims v ∧ "TIME" ∈ v_dims v.
Proof. unfold is_profile. by intros ->. Qed.

Lemma is_depth_Some (d : Dataset) n v :
  dict_get n (variables d) = Some v → is_depth d n ↔ "PRES" ∈ v_dims v.
Proof. unfold is_depth. by intros ->. Qed.

Lemma get_profile_variables_from (d : Dataset) (l acc : list string) :
  (∀ n, n ∈ l → n ∈ keys (variables d)) →
  for_each (λ profile_variables varnm,
      v ← getitem d varnm;
      if decide ("PRES" ∈ v_dims v) then
        (v ← getitem d varnm;
         if decide ("TIME" ∈ v_dims v)
         then mret (profile_variables ++ [varnm])
         else mret profile_variables)
      else mret profile_variables)
    acc l = Ok (acc ++ filter (is_profile d) l).
Proof.
  revert acc. induction l as [|n l IH]; intros acc Hl.
  - by rewrite filter_nil, app_nil_r.
  - assert (n ∈ keys (variables d)) as [v Hv]%dict_get_Some_keys
      by (apply Hl; by left).
    assert (∀ k, k ∈ l → k ∈ keys (variables d)) as Hl'
      by (intros k Hk; apply Hl; by right).
    pose proof (is_profile_Some d n v Hv) as Hiff.
    cbn [for_each]. rewrite (getitem_Some _ _ _ Hv).
    cbn [mbind result_bind]. rewrite filter_cons.
    destruct (decide ("PRES" ∈ v_dims v)) as [Hp|Hp];
      [rewrite ?(getitem_Some _ _ _ Hv); cbn [mbind result_bind];
       destruct (decide ("TIME" ∈ v_dims v)) as [Ht|Ht] |];
      destruct (decide (is_profile d n)) as [Hy|Hy];
      try (exfalso; naive_solver);
      cbn [mbind result_bind mret result_ret]; rewrite IH by done;
      by rewrite <- ?app_assoc.
Qed.

Lemma get_profile_variables_eq (d : Dataset) :
  _get_profile_variables d = Ok (filter (is_profile d) (data_vars d)).
Proof.
  unfold _get_profile_variables. rewrite get_profile_variables_from; [done|].
  by intros n [_ ?]%list_elem_of_filter.
Qed.

Lemma filter_fmap_comm {A B} (f : A → B) (P : B → Prop) (Q : A → Prop)
    `{!∀ y, Decision (P y)} `{!∀ x, Decision (Q x)} (l : list A) :
  (∀ x, x ∈ l → P (f x) ↔ Q x) → filter P (f <$> l) = f <$> filter Q l.
Proof.
  induction l as [|a l IH]; intros HPQ; [done|].
  rewrite fmap_cons, !filter_cons, IH
    by (intros x Hx; apply HPQ; by right).
  destruct (decide (Q a)) as [Hq|Hq].
  - rewrite decide_True by (apply HPQ; [by left|done]). done.
  - rewrite decide_False; [done|]. intros Hp. apply Hq, HPQ; [by left|done].
Qed.

Lemma dict_get_renamed {V} (g : string → string) (d : dict V) k :
  (∀ a b, a ∈ keys d → b ∈ keys d → g a = g b → a = b) → k ∈ keys d →
  dict_get (g k) ((λ kv, (g kv.1, kv.2)) <$> d) = dict_get k d.
Proof.
  unfold keys. induction d as [|[k0 v0] d IH]; intros Hinj Hk;
    [by apply elem_of_nil in Hk|].
  rewrite !fmap_cons in *. cbn [fst snd dict_get] in *.
  destruct (decide (k0 = k)) as [->|Hne].
  - by rewrite decide_True.
  - rewrite decide_False.
    + apply IH.
      * intros a b Ha Hb. apply Hinj; by right.
      * by apply elem_of_cons in Hk as [?|?].
    + intros Hg. apply Hne, Hinj; [by left|done|done].
Qed.



Example profile_variables_one_temp :
  _get_profile_variables cruise_one_temp = Ok ["TEMP1"; "PSAL1"]
  ∧ (remove_numbers_in_names cruise_one_temp ≫= _get_profile_variables)
    = Ok ["TEMP"; "PSAL"].
Proof. vm_compute. done. Qed.

(** ** Dropping variables: what is left, what is printed *)

Lemma keys_filter_key {V} (P : string → Prop) `{!∀ k, Decision (P k)}
    (d : dict V) :
  keys (filter (λ kv, P kv.1) d) = filter P (keys d).
Proof.
  unfold keys. induction d as [|[k v] d IH]; [done|].
  rewrite fmap_cons, !filter_cons. cbn [fst].
  destruct (decide (P k)); by rewrite ?fmap_cons, IH.
Qed.

Lemma is_depth_after_drop (gone : list string) n vs cn cn' a a' :
  n ∉ gone →
  is_depth (XrDataset (filter (λ kv, kv.1 ∉ gone) vs) cn a) n
  ↔ is_depth (XrDataset vs cn' a') n.
Proof.
  intros Hn. unfold is_depth. cbn [variables].
  by rewrite dict_get_drop, decide_False.
Qed.

(** The loop of the retain branch again: the names it collects, and the
    coordinate names it keeps. *)
Lemma keys_filter_sub {V} (P : string * V → Prop) `{!∀ x, Decision (P x)}
    (d : dict V) k :
  k ∈ keys (filter P d) → k ∈ keys d.
Proof.
  unfold keys. intros (kv & -> & [_ ?]%list_elem_of_filter)%list_elem_of_fmap.
  apply list_elem_of_fmap. by exists kv.
Qed.

Lemma retain_loop_dropped (retain_vars l : list string) (D : Dataset)
    (dropped : list string) :
  NoDup (keys (variables D)) → NoDup l →
  (∀ n, n ∈ l → n ∈ keys (variables D)) →
  let gone := filter (λ n, (n ∉ retain_vars) ∧ is_depth D n) l in
  ∃ D',
    for_each (λ Dd varnm,
        let D := Dd.1 in
        let dropped := Dd.2 in
        if decide (varnm ∉ retain_vars) then
          (v ← getitem D varnm;
           if decide ("PRES" ∈ v_dims v) then
             (D ← drop D [varnm];
              mret (D, dropped ++ [varnm]))
           else mret (D, dropped))
        else mret (D, dropped))
      (D, dropped) l = Ok (D', dropped ++ gone)
    ∧ variables D' = filter (λ kv, kv.1 ∉ gone) (variables D)
    ∧ attrs D' = attrs D
    ∧ (∀ k, k ∈ keys (variables D') →
         k ∈ coord_names D' ↔ k ∈ coord_names D).
Proof.
  revert D dropped. induction l as [|n l IH]; intros D dropped Hnd Hl Hin gone.
  - exists D. subst gone. rewrite filter_nil, app_nil_r.
    split; [done|]. split; [|done].
    symmetry. apply filter_all. intros kv _. apply not_elem_of_nil.
  - apply NoDup_cons in Hl as [Hn Hl].
    assert (n ∈ keys (variables D)) as Hnk by (apply Hin; by left).
    pose proof Hnk as [v Hv]%dict_get_Some_keys.
    pose proof (is_depth_Some D n v Hv) as Hdepth.
    assert (∀ k, k ∈ l → k ∈ keys (variables D)) as Hin'
      by (intros k Hk; apply Hin; by right).
    assert (((n ∉ retain_vars) ∧ is_depth D n) ∨
            (gone = filter (λ n, (n ∉ retain_vars) ∧ is_depth D n) l
             ∧ ¬ ((n ∉ retain_vars) ∧ "PRES" ∈ v_dims v))) as [[Hr Hd]|[Hg Hnot]].
    { subst gone. rewrite filter_cons.
      destruct (decide ((n ∉ retain_vars) ∧ is_depth D n)) as [?|Hnot];
        [by left|right]. split; [done|]. by rewrite <- Hdepth. }
    + assert (gone = n :: filter (λ n, (n ∉ retain_vars) ∧ is_depth D n) l)
        as Hg by (subst gone; by rewrite filter_cons_True).
      clearbody gone. subst gone.
      cbn [for_each fst snd]. cbn zeta.
      rewrite decide_True by done. rewrite (getitem_Some _ _ _ Hv).
      cbn [mbind result_bind]. rewrite decide_True by (by apply Hdepth).
      rewrite (drop_one _ _ Hnk). cbn [mbind result_bind mret result_ret].
      pose proof (keys_filter_key (λ k, k ∉ [n]) (variables D)) as Hkf.
      cbn beta in Hkf.
      edestruct (IH (XrDataset (filter (λ kv, kv.1 ∉ [n]) (variables D))
                       (filter (λ k, k ∈ keys (filter
                          (λ kv : string * xr_variable, kv.1 ∉ [n])
                          (variables D))) (coord_names D))
                       (attrs D)) (dropped ++ [n]))
        as (D' & HD' & Hvars & Hattrs & Hcn).
      * cbn [variables]. by apply keys_filter_NoDup.
      * done.
      * intros k Hk. cbn [variables]. rewrite Hkf.
        apply list_elem_of_filter. split; [|by apply Hin'].
        rewrite list_elem_of_singleton. by intros ->.
      * cbn zeta in HD', Hvars, Hcn.
        assert (filter (λ n0, (n0 ∉ retain_vars)
                  ∧ is_depth (XrDataset
                       (filter (λ kv, kv.1 ∉ [n]) (variables D))
                       (filter (λ k, k ∈ keys (filter
                          (λ kv : string * xr_variable, kv.1 ∉ [n])
                          (variables D))) (coord_names D))
                       (attrs D)) n0) l
                = filter (λ n0, (n0 ∉ retain_vars) ∧ is_depth D n0) l) as Hgone.
        { apply filter_ext_in. intros k Hk.
          assert (k ∉ [n]) as Hkn
            by (rewrite list_elem_of_singleton; by intros ->).
          pose proof (is_depth_after_drop [n] k (variables D)
            (filter (λ k, k ∈ keys (filter (λ kv : string * xr_variable,
                                       kv.1 ∉ [n]) (variables D)))
               (coord_names D))
            (coord_names D) (attrs D) (attrs D) Hkn) as Hiff.
          destruct D as [vs cn a]. cbn [variables coord_names attrs] in *.
          tauto. }
        rewrite Hgone in HD', Hvars. exists D'. split_and!.
        -- rewrite <- app_assoc in HD'. exact HD'.
        -- rewrite Hvars. cbn [variables]. rewrite list_filter_filter.
           apply filter_ext_in. intros [k v'] _. cbn [fst].
           rewrite !elem_of_cons, elem_of_nil. naive_solver.
        -- done.
        -- intros k Hk. rewrite (Hcn k Hk). cbn [coord_names].
           rewrite list_elem_of_filter. split; [naive_solver|].
           intros Hc. split; [|done].
           rewrite Hvars in Hk. cbn [variables] in Hk.
           apply (keys_filter_sub _ _ _ Hk).
    + clearbody gone. subst gone.
      cbn [for_each fst snd]. cbn zeta.
      destruct (decide (n ∉ retain_vars)) as [Hr|Hr];
        [rewrite (getitem_Some _ _ _ Hv); cbn [mbind result_bind mret result_ret];
         destruct (decide ("PRES" ∈ v_dims v)) as [Hp|Hp]; [by destruct Hnot|] |];
        cbn [mbind result_bind mret result_ret];
        by apply IH.
Qed.

(** The retain branch as a whole: the printed line, and the dataset. *)
Lemma drop_retain_run (D : Dataset) (R : list string) :
  NoDup (keys (variables D)) →
  ∃ D',
    drop_variables D (Some R) None
    = Py ["Dropped these variables from the Dataset: "
          +:+ repr_names (to_drop D R) +:+ "."] (Ok D')
    ∧ variables D' = filter (λ kv, kv.1 ∉ to_drop D R) (variables D)
    ∧ attrs D' = attrs D
    ∧ (∀ k, k ∈ keys (variables D') →
         k ∈ coord_names D' ↔ k ∈ coord_names D).
Proof.
  intros Hnd.
  destruct (retain_loop_dropped R (data_vars D) D [] Hnd)
    as (D' & HD' & Hv & Ha & Hc).
  - by apply NoDup_filter.
  - by intros n [_ ?]%list_elem_of_filter.
  - exists D'. cbn zeta in HD', Hv. rewrite app_nil_l in HD'.
    fold (to_drop D R) in HD', Hv. split; [|done].
    unfold drop_variables. cbn [from_option]. unfold id.
    unfold mbind at 1, py_bind. rewrite outcome_lift. cbn zeta.
    by rewrite HD'.
Qed.

Lemma data_vars_after_drop (D D' : Dataset) (gone : list string) :
  variables D' = filter (λ kv, kv.1 ∉ gone) (variables D) →
  (∀ k, k ∈ keys (variables D') → k ∈ coord_names D' ↔ k ∈ coord_names D) →
  data_vars D' = filter (λ n, n ∉ gone) (data_vars D).
Proof.
  intros Hv Hc. unfold data_vars.
  pose proof (keys_filter_key (λ k, k ∉ gone) (variables D)) as Hkf.
  cbn beta in Hkf. rewrite Hv in Hc |- *. rewrite Hkf in Hc |- *.
  rewrite !list_filter_filter. apply filter_ext_in. intros k Hk.
  specialize (Hc k). rewrite list_elem_of_filter in Hc. tauto.
Qed.

(** X5: with the variable names of the dataset distinct, the retain branch
    of [drop_variables] returns a dataset whose profile variables, as
    [_get_profile_variables] lists them, are the profile variables of the
    input that are named in [retain_vars], in their old order. *)
Theorem profile_variables_after_drop (D : Dataset) (R : list string) :
  NoDup (keys (variables D)) →
  ∃ D' profile_variables,
    outcome (drop_variables D (Some R) None) = Ok D'
    ∧ _get_profile_variables D = Ok profile_variables
    ∧ _get_profile_variables D' = Ok (filter (λ n, n ∈ R) profile_variables).
Proof.
  intros Hnd. destruct (drop_retain_run D R Hnd) as (D' & Hrun & Hv & _ & Hc).
  exists D', (filter (is_profile D) (data_vars D)).
  split; [by rewrite Hrun|]. split; [apply get_profile_variables_eq|].
  rewrite get_profile_variables_eq. f_equal.
  rewrite (data_vars_after_drop D D' _ Hv Hc).
  rewrite !list_filter_filter. apply filter_ext_in. intros n Hn.
  unfold is_profile at 1. rewrite Hv, dict_get_drop.
  destruct (decide (n ∈ to_drop D R)) as [Hg|Hg].
  - apply list_elem_of_filter in Hg as [[Hr _] _]. tauto.
  - fold (is_profile D n).
    assert (is_profile D n → n ∈ R) as Hret; [|tauto].
    intros Hp. destruct (decide (n ∈ R)) as [|Hr]; [done|].
    exfalso. apply Hg. apply list_elem_of_filter. split; [|done].
    split; [done|]. unfold is_profile, is_depth in *.
    destruct (dict_get n (variables D)); tauto.
Qed.

Lemma profile_variables_after_drop_witness :
  NoDup (keys (variables cruise_two_temps))
  ∧ ∃ D' profile_variables,
      outcome (drop_variables cruise_two_temps (Some ["TEMP1"; "STATION"]) None)
      = Ok D'
      ∧ _get_profile_variables cruise_two_temps = Ok profile_variables
      ∧ _get_profile_variables D'
        = Ok (filter (λ n, n ∈ ["TEMP1"; "STATION"]) profile_variables).
Proof.
  assert (NoDup (keys (variables cruise_two_temps))) as Hnd
    by (apply (bool_decide_unpack _); vm_compute; exact I).
  split; [exact Hnd|].
  exact (profile_variables_after_drop cruise_two_temps ["TEMP1"; "STATION"] Hnd).
Defined.

Example profile_variables_two_temps_retained :
  (D ← outcome (drop_variables cruise_two_temps (Some ["TEMP1"; "STATION"]) None);
   _get_profile_variables D) = Ok ["TEMP1"].
Proof. vm_compute. done. Qed.

(** X6: with the variable names of the dataset distinct, the retain branch
    of [drop_variables] prints one line, and the names that line lists are
    exactly the variables of the input that the returned dataset no longer
    has; each of them is a data variable outside [retain_vars]; the
    attributes of the dataset stay as they were. *)
Theorem drop_variables_prints_what_went (D : Dataset) (R : list string) :
  NoDup (keys (variables D)) →
  ∃ D' dropped,
    drop_variables D (Some R) None
    = Py ["Dropped these variables from the Dataset: "
          +:+ repr_names dropped +:+ "."] (Ok D')
    ∧ (∀ n, n ∈ dropped ↔ n ∈ keys (variables D) ∧ n ∉ keys (variables D'))
    ∧ (∀ n, n ∈ dropped → n ∈ data_vars D ∧ n ∉ R)
    ∧ NoDup dropped
    ∧ attrs D' = attrs D.
Proof.
  intros Hnd. destruct (drop_retain_run D R Hnd) as (D' & Hrun & Hv & Ha & _).
  exists D', (to_drop D R). split; [done|].
  pose proof (keys_filter_key (λ k, k ∉ to_drop D R) (variables D)) as Hkf.
  cbn beta in Hkf. rewrite Hv, Hkf. split_and!; [| | |done].
  - intros n. rewrite list_elem_of_filter. split.
    + intros Hn. pose proof Hn as [_ [_ ?]%list_elem_of_filter]%list_elem_of_filter.
      tauto.
    + intros [Hk Hn]. destruct (decide (n ∈ to_drop D R)); tauto.
  - intros n [[? _] ?]%list_elem_of_filter. done.
  - apply NoDup_filter. by apply NoDup_filter.
Qed.

Lemma drop_variables_prints_what_went_witness :
  NoDup (keys (variables cruise_two_temps))
  ∧ ∃ D' dropped,
      drop_variables cruise_two_temps (Some ["TEMP1"]) None
      = Py ["Dropped these variables from the Dataset: "
            +:+ repr_names dropped +:+ "."] (Ok D')
      ∧ (∀ n, n ∈ dropped
              ↔ n ∈ keys (variables cruise_two_temps)
                ∧ n ∉ keys (variables D'))
      ∧ (∀ n, n ∈ dropped → n ∈ data_vars cruise_two_temps ∧ n ∉ ["TEMP1"])
      ∧ NoDup dropped
      ∧ attrs D' = attrs cruise_two_temps.
Proof.
  assert (NoDup (keys (variables cruise_two_temps))) as Hnd
    by (apply (bool_decide_unpack _); vm_compute; exact I).
  split; [exact Hnd|].
  exact (drop_variables_prints_what_went cruise_two_temps ["TEMP1"] Hnd).
Defined.

Example drop_variables_two_temps_line :
  stdout (drop_variables cruise_two_temps (Some ["TEMP1"]) None)
  = ["Dropped these variables from the Dataset: ['TEMP2', 'PSAL1']."].
Proof. vm_compute. done. Qed.

(** The loop of the retain branch leaves alone a dataset in which every
    name it visits is retained or has no [PRES] dimension. *)
Lemma retain_loop_noop (retain_vars l : list string) (D : Dataset)
    (dropped : list string) :
  (∀ n, n ∈ l → n ∈ keys (variables D)) →
  (∀ n, n ∈ l → ¬ ((n ∉ retain_vars) ∧ is_depth D n)) →
  for_each (λ Dd varnm,
      let D := Dd.1 in
      let dropped := Dd.2 in
      if decide (varnm ∉ retain_vars) then
        (v ← getitem D varnm;
         if decide ("PRES" ∈ v_dims v) then
           (D ← drop D [varnm];
            mret (D, dropped ++ [varnm]))
         else mret (D, dropped))
      else mret (D, dropped))
    (D, dropped) l = Ok (D, dropped).
Proof.
  induction l as [|n l IH]; intros Hin Hno; [done|].
  assert (n ∈ keys (variables D)) as [v Hv]%dict_get_Some_keys
    by (apply Hin; by left).
  pose proof (is_depth_Some D n v Hv) as Hdepth.
  pose proof (Hno n ltac:(by left)) as Hn.
  cbn [for_each fst snd]. cbn zeta.
  destruct (decide (n ∉ retain_vars)) as [Hr|Hr];
    [rewrite (getitem_Some _ _ _ Hv); cbn [mbind result_bind mret result_ret];
     destruct (decide ("PRES" ∈ v_dims v)) as [Hp|Hp]; [tauto|] |];
    cbn [mbind result_bind mret result_ret];
    (apply IH; [intros k Hk; apply Hin; by right
               |intros k Hk; apply Hno; by right]).
Qed.

(** X7: with the variable names of the dataset distinct, running the retain
    branch of [drop_variables] a second time with the same [retain_vars]
    changes nothing: it returns the dataset it was given and reports an
    empty list of dropped variables. *)
Theorem drop_variables_idempotent (D : Dataset) (R : list string) :
  NoDup (keys (variables D)) →
  ∃ D',
    outcome (drop_variables D (Some R) None) = Ok D'
    ∧ drop_variables D' (Some R) None
      = Py ["Dropped these variables from the Dataset: []."] (Ok D').
Proof.
  intros Hnd. destruct (drop_retain_run D R Hnd) as (D' & Hrun & Hv & _ & Hc).
  exists D'. split; [by rewrite Hrun|].
  unfold drop_variables. cbn [from_option]. unfold id.
  unfold mbind at 1, py_bind. rewrite outcome_lift. cbn zeta.
  rewrite retain_loop_noop; [done| |].
  - by intros n [_ ?]%list_elem_of_filter.
  - intros n Hn [Hr Hd].
    rewrite (data_vars_after_drop D D' _ Hv Hc) in Hn.
    apply list_elem_of_filter in Hn as [Hg Hn]. apply Hg.
    apply list_elem_of_filter. split; [|done]. split; [done|].
    unfold is_depth in Hd |- *. rewrite Hv, dict_get_drop in Hd.
    by rewrite decide_False in Hd.
Qed.

Lemma drop_variables_idempotent_witness :
  NoDup (keys (variables cruise_two_temps))
  ∧ ∃ D',
      outcome (drop_variables cruise_two_temps (Some ["TEMP1"]) None) = Ok D'
      ∧ drop_variables D' (Some ["TEMP1"]) None
        = Py ["Dropped these variables from the Dataset: []."] (Ok D').
Proof.
  assert (NoDup (keys (variables cruise_two_temps))) as Hnd
    by (apply (bool_decide_unpack _); vm_compute; exact I).
  split; [exact Hnd|].
  exact (drop_variables_idempotent cruise_two_temps ["TEMP1"] Hnd).
Defined.

(** ** Reordering attributes: nothing but the order changes *)

Lemma dict_get_alter {V} (f : V → V) k n (d : dict V) :
  dict_get n (dict_alter f k d)
  = if decide (k = n) then f <$> dict_get n d else dict_get n d.
Proof.
  induction d as [|[k' v] d IH]; [by destruct (decide (k = n))|].
  cbn [dict_alter dict_get].
  destruct (decide (k' = k)) as [->|Hk]; cbn [dict_get];
    [|rewrite IH]; repeat case_decide; by simplify_eq.
Qed.

Lemma same_content_refl v : same_content v v.
Proof. by repeat split. Qed.

Lemma same_content_trans v1 v2 v3 :
  same_content v1 v2 → same_content v2 v3 → same_content v1 v3.
Proof.
  intros (Hd & Hx & Ha) (Hd' & Hx' & Ha'). split_and!; [congruence..|].
  intros k. by rewrite Ha', Ha.
Qed.

Lemma same_content_reorder_var Rv v : same_content v (reorder_var Rv v).
Proof.
  split_and!; [done..|]. intros k. cbn [reorder_var v_attrs].
  apply dict_get_reordered.
Qed.

Lemma dict_get_reorder_each Rv (names : list string) (d : dict xr_variable)
    n v :
  dict_get n d = Some v →
  ∃ v', dict_get n (alter_each (reorder_var Rv) names d) = Some v'
        ∧ same_content v v'.
Proof.
  revert d v. induction names as [|a names IH]; intros d v Hv.
  - exists v. split; [done|apply same_content_refl].
  - cbn [alter_each foldl]. fold (alter_each (reorder_var Rv) names).
    destruct (decide (a = n)) as [->|Ha].
    + destruct (IH (dict_alter (reorder_var Rv) n d) (reorder_var Rv v))
        as (v' & Hv' & Hs).
      { by rewrite dict_get_alter, decide_True, Hv. }
      exists v'. split; [done|].
      eapply same_content_trans; [apply same_content_reorder_var|done].
    + apply IH. by rewrite dict_get_alter, decide_False.
Qed.

(** X8: [reorder_attrs] returns for every dataset, and the dataset it
    returns differs from its argument in the order of attributes only: the
    variables keep their names and order and the coordinates stay
    coordinates, every variable keeps its dimensions, its data and its value
    under every attribute name, and every global attribute name keeps its
    value. *)
Theorem reorder_attrs_keeps_content (Rg Rv : list string) (D : Dataset) :
  ∃ D', reorder_attrs Rg Rv D = Ok D'
    ∧ coord_names D' = coord_names D
    ∧ keys (variables D') = keys (variables D)
    ∧ (∀ k, dict_get k (attrs D') = dict_get k (attrs D))
    ∧ (∀ n v, dict_get n (variables D) = Some v →
         ∃ v', dict_get n (variables D') = Some v' ∧ same_content v v').
Proof.
  eexists. split; [apply reorder_attrs_eq|]. cbn [coord_names variables attrs].
  split_and!; [done| | |].
  - apply keys_alter_each.
  - intros k. apply dict_get_reordered.
  - intros n v Hv. by apply dict_get_reorder_each.
Qed.

(** ** [make_publishing_ready] *)

Lemma reorder_attrs_fixed (Rg Rv : list string) (D D' : Dataset) :
  reorder_attrs Rg Rv D = Ok D' → reorder_attrs Rg Rv D' = Ok D'.
Proof.
  rewrite reorder_attrs_eq. intros [= <-].
  rewrite reorder_attrs_eq. f_equal. unfold data_vars. simpl.
  rewrite keys_alter_each, reordered_idem. f_equal.
  apply alter_each_idem, reorder_var_idem.
Qed.

Section publishing_properties.

Variables Rg Rv : list string.
Variable add_standard_var_attrs_ctd : Dataset → py Dataset.
Variable add_standard_glob_attrs_ctd : Dataset → bool → bool → py Dataset.
Variable add_gmdc_keywords_ctd : Dataset → py Dataset.
Variable add_range_attrs_ctd : Dataset → py Dataset.

Local Abbreviation publish :=
  (make_publishing_ready Rg Rv add_standard_var_attrs_ctd
     add_standard_glob_attrs_ctd add_gmdc_keywords_ctd add_range_attrs_ctd).

(** X9: whatever the four conventionalize steps do, a dataset that
    [make_publishing_ready] returns has its attributes in order already:
    [reorder_attrs] returns it unchanged. *)
Theorem make_publishing_ready_is_ordered (D D' : Dataset) (NPI : bool)
    (retain_vars : option (list string)) :
  outcome (publish D NPI retain_vars) = Ok D' →
  reorder_attrs Rg Rv D' = Ok D'.
Proof.
  unfold make_publishing_ready. cbn zeta.
  do 6 (rewrite outcome_bind;
        match goal with
        | |- context [outcome ?m ≫= _] =>
            destruct (outcome m) as [?|?]; [cbn [mbind result_bind]|done]
        end).
  rewrite outcome_bind, outcome_lift.
  match goal with
  | |- context [reorder_attrs Rg Rv ?d] =>
      destruct (reorder_attrs Rg Rv d) as [D1|] eqn:HD1; [|done]
  end.
  cbn [mbind result_bind]. rewrite outcome_ret. intros [= <-].
  by apply (reorder_attrs_fixed _ _ _ _ HD1).
Qed.

(** X10: with the variable names of the dataset distinct, when two
    different data variables that [drop_variables] keeps have the same
    digit-stripped name, [make_publishing_ready] raises after printing the
    one line of [drop_variables]; the conventionalize steps are not
    reached. *)
Theorem make_publishing_ready_raises_on_collision (D : Dataset) (NPI : bool)
    (R : list string) (n1 n2 : string) :
  NoDup (keys (variables D)) →
  n1 ∈ data_vars D → n2 ∈ data_vars D →
  n1 ∉ to_drop D R → n2 ∉ to_drop D R →
  n1 ≠ n2 → strip_digits n1 = strip_digits n2 →
  ∃ e, publish D NPI (Some R)
       = Py ["Dropped these variables from the Dataset: "
             +:+ repr_names (to_drop D R) +:+ "."] (Raise e).
Proof.
  intros Hnd H1 H2 Hk1 Hk2 Hne Hs.
  destruct (drop_retain_run D R Hnd) as (D1 & Hrun & Hv & _ & Hc).
  pose proof (data_vars_after_drop D D1 _ Hv Hc) as Hdv.
  destruct (remove_numbers_raises_on_collision D1 n1 n2) as [e He];
    [rewrite Hdv; by apply list_elem_of_filter..|done|done|].
  exists e. unfold make_publishing_ready. cbn [from_option]. unfold id.
  rewrite Hrun. unfold mbind at 1, py_bind. cbn [outcome stdout].
  unfold mbind at 1, py_bind. rewrite outcome_lift, He. done.
Qed.

End publishing_properties.

Lemma make_publishing_ready_is_ordered_witness :
  let publish :=
    make_publishing_ready example_global_attrs_ordered
      example_variable_attrs_ordered mret (λ D _ _, mret D) mret mret in
  ∃ D', outcome (publish cruise_one_temp true (Some ["TEMP1"])) = Ok D'
    ∧ reorder_attrs example_global_attrs_ordered
        example_variable_attrs_ordered D' = Ok D'.
Proof.
  intros publish.
  destruct (outcome (publish cruise_one_temp true (Some ["TEMP1"])))
    as [D'|e] eqn:HD'; [|by vm_compute in HD'].
  exists D'. split; [reflexivity|].
  exact (make_publishing_ready_is_ordered _ _ _ _ _ _ _ _ _ _ HD').
Defined.

Lemma make_publishing_ready_raises_on_collision_witness :
  NoDup (keys (variables cruise_two_temps))
  ∧ "TEMP1" ∈ data_vars cruise_two_temps
  ∧ "TEMP2" ∈ data_vars cruise_two_temps
  ∧ "TEMP1" ∉ to_drop cruise_two_temps ["TEMP1"; "TEMP2"]
  ∧ "TEMP2" ∉ to_drop cruise_two_temps ["TEMP1"; "TEMP2"]
  ∧ "TEMP1" ≠ "TEMP2" ∧ strip_digits "TEMP1" = strip_digits "TEMP2"
  ∧ ∃ e, make_publishing_ready example_global_attrs_ordered
           example_variable_attrs_ordered mret (λ D _ _, mret D) mret mret
           cruise_two_temps true (Some ["TEMP1"; "TEMP2"])
         = Py ["Dropped these variables from the Dataset: "
               +:+ repr_names (to_drop cruise_two_temps ["TEMP1"; "TEMP2"])
               +:+ "."] (Raise e).
Proof.
  assert (NoDup (keys (variables cruise_two_temps))) as Hnd
    by (apply (bool_decide_unpack _); vm_compute; exact I).
  assert ("TEMP1" ∈ data_vars cruise_two_temps) as H1
    by (vm_compute; repeat constructor).
  assert ("TEMP2" ∈ data_vars cruise_two_temps) as H2
    by (vm_compute; repeat constructor).
  assert ("TEMP1" ∉ to_drop cruise_two_temps ["TEMP1"; "TEMP2"]) as Hk1
    by (apply (bool_decide_unpack _); vm_compute; exact I).
  assert ("TEMP2" ∉ to_drop cruise_two_temps ["TEMP1"; "TEMP2"]) as Hk2
    by (apply (bool_decide_unpack _); vm_compute; exact I).
  assert ("TEMP1" ≠ "TEMP2") as Hne by done.
  assert (strip_digits "TEMP1" = strip_digits "TEMP2") as Hs by reflexivity.
  split_and!; [done..|].
  exact (make_publishing_ready_raises_on_collision _ _ _ _ _ _
           cruise_two_temps true _ _ _ Hnd H1 H2 Hk1 Hk2 Hne Hs).
Defined.
